(** * A shallow embedding of the Markdown validator

    Source: [src/agent/tools/markdown_validator.py].

    Python [str] values are modelled as [string]; a character is a code
    point in the range 0..255 (the type [ascii]), classified the way
    Python classifies those code points ([str.isspace], the [re] classes
    [\s], [\w], [\d] on [str] patterns, [str.lower]).  The lines handed to
    the checkers come from [content.split('\n')], so they never contain a
    line feed; the hand-written scanners below stand for the compiled
    regular expressions on such lines. *)

From Stdlib Require Import String Ascii List Arith Lia Bool.
From Stdlib Require Import Sorting.Sorted Sorting.Permutation.
From Stdlib Require Import DecimalString.
From stdpp Require Import gmap strings.
Import ListNotations.

Local Open Scope string_scope.
Local Open Scope list_scope.
Local Open Scope nat_scope.

(** ** Characters *)

Module Char.

Definition code (c : ascii) : nat := nat_of_ascii c.

Definition between (lo hi : nat) (c : ascii) : bool :=
  (lo <=? code c) && (code c <=? hi).

(** [str.isspace] and the class [\s]: TAB..CR, FS..US, space, NEL, NBSP. *)
Definition is_space (c : ascii) : bool :=
  between 9 13 c || between 28 32 c || (code c =? 133) || (code c =? 160).

(** The class [\d] on a [str] pattern: decimal digits. *)
Definition is_digit (c : ascii) : bool := between 48 57 c.

(** The class [\w] on a [str] pattern: alphanumerics and the underscore. *)
Definition is_word (c : ascii) : bool :=
  between 48 57 c || between 65 90 c || (code c =? 95) || between 97 122 c
  || (code c =? 170) || between 178 179 c || (code c =? 181)
  || between 185 186 c || between 188 190 c || between 192 214 c
  || between 216 246 c || between 248 255 c.

(** [str.lower] on one code point: A..Z and the Latin-1 capitals. *)
Definition lower (c : ascii) : ascii :=
  if between 65 90 c || between 192 214 c || between 216 222 c
  then ascii_of_nat (code c + 32) else c.

Definition eqb (a b : ascii) : bool := Ascii.eqb a b.

End Char.

Definition backtick : ascii := "`"%char.
Definition tilde : ascii := "~"%char.
Definition hash : ascii := "#"%char.
Definition pipe : ascii := "|"%char.
Definition lbracket : ascii := "["%char.
Definition rbracket : ascii := "]"%char.
Definition lparen : ascii := "("%char.
Definition rparen : ascii := ")"%char.
Definition colon : ascii := ":"%char.
Definition bang : ascii := "!"%char.
Definition newline : ascii := ascii_of_nat 10.

(** ** Python string operations *)

Module Str.

Definition is_empty (s : string) : bool :=
  match s with EmptyString => true | String _ _ => false end.

(** Truthiness of a [str]. *)
Definition truthy (s : string) : bool := negb (is_empty s).

Fixpoint all (p : ascii -> bool) (s : string) : bool :=
  match s with
  | EmptyString => true
  | String c r => p c && all p r
  end.

Fixpoint repeat (c : ascii) (n : nat) : string :=
  match n with
  | O => EmptyString
  | S k => String c (repeat c k)
  end.

(** [s * n] for a string [s]. *)
Fixpoint times (s : string) (n : nat) : string :=
  match n with
  | O => EmptyString
  | S k => s +:+ times s k
  end.

(** Longest prefix whose characters satisfy [p]. *)
Fixpoint take_while (p : ascii -> bool) (s : string) : string :=
  match s with
  | EmptyString => EmptyString
  | String c r => if p c then String c (take_while p r) else EmptyString
  end.

Fixpoint drop_while (p : ascii -> bool) (s : string) : string :=
  match s with
  | EmptyString => EmptyString
  | String c r => if p c then drop_while p r else s
  end.

Definition lstrip_by (p : ascii -> bool) (s : string) : string :=
  drop_while p s.

Fixpoint rstrip_by (p : ascii -> bool) (s : string) : string :=
  match s with
  | EmptyString => EmptyString
  | String c r =>
      let r' := rstrip_by p r in
      if p c && is_empty r' then EmptyString else String c r'
  end.

(** [s.strip()], [s.rstrip()], [s.rstrip('#')]. *)
Definition rstrip (s : string) : string := rstrip_by Char.is_space s.
Definition strip (s : string) : string :=
  rstrip_by Char.is_space (lstrip_by Char.is_space s).
Definition rstrip_char (c : ascii) (s : string) : string :=
  rstrip_by (Char.eqb c) s.

(** [s.lower()]. *)
Fixpoint lower (s : string) : string :=
  match s with
  | EmptyString => EmptyString
  | String c r => String (Char.lower c) (lower r)
  end.

(** [s.startswith(p)]. *)
Definition startswith (p s : string) : bool := String.prefix p s.

Fixpoint last (s : string) : option ascii :=
  match s with
  | EmptyString => None
  | String c EmptyString => Some c
  | String _ r => last r
  end.

(** [s.endswith(c)] for a one-character [c]. *)
Definition endswith_char (c : ascii) (s : string) : bool :=
  match last s with
  | Some d => Char.eqb c d
  | None => false
  end.

(** [c in s] for a one-character [c]. *)
Fixpoint contains_char (c : ascii) (s : string) : bool :=
  match s with
  | EmptyString => false
  | String d r => Char.eqb c d || contains_char c r
  end.

(** [s.count(c)] for a one-character [c]. *)
Fixpoint count_char (c : ascii) (s : string) : nat :=
  match s with
  | EmptyString => 0
  | String d r => (if Char.eqb c d then 1 else 0) + count_char c r
  end.

(** [s.count(c*3)]: occurrences that do not overlap, from the left. *)
Fixpoint count_triple (c : ascii) (s : string) : nat :=
  match s with
  | String c1 ((String c2 (String c3 r)) as t) =>
      if Char.eqb c c1 && Char.eqb c c2 && Char.eqb c c3
      then S (count_triple c r) else count_triple c t
  | _ => 0
  end.

(** [len(re.findall(cc, s))] for a doubled character [cc]. *)
Fixpoint count_double (c : ascii) (s : string) : nat :=
  match s with
  | String c1 ((String c2 r) as t) =>
      if Char.eqb c c1 && Char.eqb c c2
      then S (count_double c r) else count_double c t
  | _ => 0
  end.

(** [s.split(c)] for a one-character separator: never empty. *)
Fixpoint split (sep : ascii) (s : string) : list string :=
  match s with
  | EmptyString => [EmptyString]
  | String c r =>
      if Char.eqb sep c then EmptyString :: split sep r
      else match split sep r with
           | h :: t => String c h :: t
           | [] => [String c EmptyString]
           end
  end.

(** [s.split('#')[0]]. *)
Definition before_char (sep : ascii) (s : string) : string :=
  take_while (fun c => negb (Char.eqb sep c)) s.

(** [s[n:]] and [s[n:n+1]]. *)
Fixpoint drop (n : nat) (s : string) : string :=
  match n, s with
  | O, _ => s
  | S k, String _ r => drop k r
  | S _, EmptyString => EmptyString
  end.

Definition char_at (n : nat) (s : string) : string :=
  match drop n s with
  | String c _ => String c EmptyString
  | EmptyString => EmptyString
  end.

(** [str(n)] for a non-negative integer. *)
Definition of_nat (n : nat) : string :=
  NilEmpty.string_of_uint (Nat.to_uint n).

End Str.

(** ** The data model *)

(** The three values the [severity] field takes. *)
Inductive Severity : Type := sev_error | sev_warning | sev_info.

(** The tags the [issue_type] field takes. *)
Inductive IssueType : Type :=
  | file_error
  | header_format | empty_header | header_hierarchy | trailing_hashes
  | empty_link_text | empty_url | undefined_reference
  | broken_local_link | invalid_url_format | broken_external_link | link_timeout
  | unmatched_backticks | unclosed_code_block
  | inconsistent_indent | empty_list_item
  | missing_alt_text | empty_image_url | missing_image
  | unmatched_bold
  | table_column_mismatch.

Definition severity_eqb (a b : Severity) : bool :=
  match a, b with
  | sev_error, sev_error | sev_warning, sev_warning | sev_info, sev_info => true
  | _, _ => false
  end.

Definition issue_type_tag (t : IssueType) : nat :=
  match t with
  | file_error => 0
  | header_format => 1 | empty_header => 2 | header_hierarchy => 3
  | trailing_hashes => 4
  | empty_link_text => 5 | empty_url => 6 | undefined_reference => 7
  | broken_local_link => 8 | invalid_url_format => 9
  | broken_external_link => 10 | link_timeout => 11
  | unmatched_backticks => 12 | unclosed_code_block => 13
  | inconsistent_indent => 14 | empty_list_item => 15
  | missing_alt_text => 16 | empty_image_url => 17 | missing_image => 18
  | unmatched_bold => 19
  | table_column_mismatch => 20
  end.

Definition issue_type_eqb (a b : IssueType) : bool :=
  issue_type_tag a =? issue_type_tag b.

(** The dataclass [ValidationIssue]. *)
Record ValidationIssue : Type := mkIssue {
  line_number : nat;
  issue_type : IssueType;
  severity : Severity;
  description : string;
  original_text : string;
  suggested_fix : string
}.

(** What [open(...).read()] does in [load_file]. *)
Inductive read_result : Type :=
  | ReadOk (content : string)
  | ReadNotFound
  | ReadFailed (message : string).

(** What [requests.head(url, timeout=5, allow_redirects=True)] does. *)
Inductive head_result : Type :=
  | HeadStatus (status_code : nat)
  | HeadTimeout
  | HeadRequestException
  | HeadOtherException.

(** The world a run observes: the file behind [file_path], the directory
    [base_dir] computed by the constructor, [os.path.exists], [urlparse]
    (its [scheme] and [netloc], or [None] when it raises) and the network. *)
Record World : Type := mkWorld {
  file_path : string;
  base_dir : string;
  read_file : read_result;
  path_exists : string -> bool;
  urlparse : string -> option (string * string);
  requests_head : string -> head_result
}.

(** [os.path.join(a, b)] on a POSIX system. *)
Definition path_join (a b : string) : string :=
  if Str.startswith "/" b then b
  else if Str.is_empty a || Str.endswith_char "/"%char a then a +:+ b
  else a +:+ "/" +:+ b.

(** ** The regular expressions *)

Module Re.

(** The patterns as the source writes them; each scanner below stands
    for one of them. *)
Definition header_pattern_source : string := "^(#{1,6})\s*(.*)$".
Definition link_pattern_source : string := "\[([^\]]*)\]\(([^)]*)\)".
Definition ref_link_pattern_source : string := "\[([^\]]+)\]\[([^\]]*)\]".
Definition ref_def_pattern_source : string := "^\[([^\]]+)\]:\s*(.+)$".
Definition fence_pattern_source : string := "^(`{3,}|~{3,})(\w*)$".
Definition list_item_pattern_source : string := "^(\s*)([-*+]|\d+[.)])\s+(.*)$".
Definition image_pattern_source : string := "!\[([^\]]*)\]\(([^)]*)\)".
Definition code_span_source : string := "`[^`]+`".
Definition separator_source : string := "^[\s|:-]+$".

(** A match object: [group(0)], [group(1)], [group(2)]. *)
Record rmatch : Type := mkMatch {
  group0 : string;
  group1 : string;
  group2 : string
}.

(** [s] cut at the first [c]: what precedes it and what follows it. *)
Fixpoint until (c : ascii) (s : string) : option (string * string) :=
  match s with
  | EmptyString => None
  | String d r =>
      if Char.eqb c d then Some (EmptyString, r)
      else match until c r with
           | Some (body, rest) => Some (String d body, rest)
           | None => None
           end
  end.

(** [pattern.finditer(s)] for a pattern that matches no empty string:
    [at_ s] is the match starting at the head of [s], if any; the scan
    resumes where a match ends ([skip] characters are still inside it). *)
Fixpoint finditer_from (at_ : string -> option rmatch) (skip : nat)
    (s : string) : list rmatch :=
  match s with
  | EmptyString => []
  | String _ r =>
      match skip with
      | S k => finditer_from at_ k r
      | O =>
          match at_ s with
          | Some m => m :: finditer_from at_ (String.length (group0 m) - 1) r
          | None => finditer_from at_ 0 r
          end
      end
  end.

Definition finditer (at_ : string -> option rmatch) (s : string) : list rmatch :=
  finditer_from at_ 0 s.

(** [header_pattern], used with [match]: a group of one to six [#] at
    the start of the line, white space, then a group with the rest of
    the line.  The first group is greedy and nothing forbids a seventh
    [#] from starting the second one. *)
Definition header_pattern (line : string) : option rmatch :=
  let run := String.length (Str.take_while (Char.eqb hash) line) in
  if run =? 0 then None
  else
    let k := Nat.min run 6 in
    Some {| group0 := line;
            group1 := Str.repeat hash k;
            group2 := Str.drop_while Char.is_space (Str.drop k line) |}.

(** [link_pattern] at the head of [s]: a bracketed group with no closing bracket
    inside, then a parenthesised group with no closing parenthesis
    inside. *)
Definition link_pattern_at (s : string) : option rmatch :=
  match s with
  | String "["%char r =>
      match until rbracket r with
      | Some (text, String "("%char r2) =>
          match until rparen r2 with
          | Some (url, _) =>
              Some {| group0 := "[" +:+ text +:+ "](" +:+ url +:+ ")";
                      group1 := text; group2 := url |}
          | None => None
          end
      | _ => None
      end
  | _ => None
  end.

(** [ref_link_pattern] at the head of [s]: a non-empty bracketed group
    followed at once by a second, possibly empty, bracketed group. *)
Definition ref_link_pattern_at (s : string) : option rmatch :=
  match s with
  | String "["%char r =>
      match until rbracket r with
      | Some (text, String "["%char r2) =>
          if Str.is_empty text then None
          else
            match until rbracket r2 with
            | Some (ref, _) =>
                Some {| group0 := "[" +:+ text +:+ "][" +:+ ref +:+ "]";
                        group1 := text; group2 := ref |}
            | None => None
            end
      | _ => None
      end
  | _ => None
  end.

(** [ref_def_pattern]: a non-empty bracketed group at the start of the
    line, a colon, white space, and a non-empty group with the rest of
    the line.  The white space is taken greedily unless nothing would
    be left for the last group, which then gets the last character. *)
Definition ref_def_pattern (line : string) : option rmatch :=
  match line with
  | String "["%char r =>
      match until rbracket r with
      | Some (ref, String ":"%char r2) =>
          if Str.is_empty ref then None
          else
            let target := Str.drop_while Char.is_space r2 in
            if Str.truthy target
            then Some {| group0 := line; group1 := ref; group2 := target |}
            else match Str.last r2 with
                 | Some c => Some {| group0 := line; group1 := ref;
                                     group2 := String c EmptyString |}
                 | None => None
                 end
      | _ => None
      end
  | _ => None
  end.

Definition ref_def_finditer (line : string) : list rmatch :=
  match ref_def_pattern line with
  | Some m => [m]
  | None => []
  end.

(** The fence pattern, used with [match] on a stripped line: a group
    of three or more backticks, or of three or more tildes, then a
    group of word characters up to the end. *)
Definition fence_pattern (s : string) : option rmatch :=
  match s with
  | String c _ =>
      if Char.eqb c backtick || Char.eqb c tilde then
        let run := Str.take_while (Char.eqb c) s in
        let tag := Str.drop_while (Char.eqb c) s in
        if (3 <=? String.length run) && Str.all Char.is_word tag
        then Some {| group0 := s; group1 := run; group2 := tag |}
        else None
      else None
  | EmptyString => None
  end.

(** The marker group of [list_item_pattern] at the head of [s] (one of
    [-], [*], [+], or digits followed by a dot or a closing
    parenthesis), and what follows it. *)
Definition list_marker (s : string) : option (string * string) :=
  match s with
  | String c r =>
      if Char.eqb c "-"%char || Char.eqb c "*"%char || Char.eqb c "+"%char
      then Some (String c EmptyString, r)
      else
        let digits := Str.take_while Char.is_digit s in
        if Str.is_empty digits then None
        else match Str.drop_while Char.is_digit s with
             | String d r2 =>
                 if Char.eqb d "."%char || Char.eqb d rparen
                 then Some (digits +:+ String d EmptyString, r2)
                 else None
             | EmptyString => None
             end
  | EmptyString => None
  end.

(** [list_item_pattern], used with [match]: the groups are the
    indentation, the marker and, after at least one white space, the
    content. *)
Definition list_item_pattern (line : string)
    : option (string * string * string) :=
  let indent := Str.take_while Char.is_space line in
  match list_marker (Str.drop_while Char.is_space line) with
  | Some (marker, rest) =>
      if Str.is_empty (Str.take_while Char.is_space rest) then None
      else Some (indent, marker, Str.drop_while Char.is_space rest)
  | None => None
  end.

(** [image_pattern] at the head of [s]: [!] followed by what
    [link_pattern] matches. *)
Definition image_pattern_at (s : string) : option rmatch :=
  match s with
  | String "!"%char r =>
      match link_pattern_at r with
      | Some m => Some {| group0 := String bang (group0 m);
                          group1 := group1 m; group2 := group2 m |}
      | None => None
      end
  | _ => None
  end.

(** The length of an inline code span at the head of [s]: a backtick,
    one or more other characters, a backtick. *)
Definition code_span_at (s : string) : option nat :=
  match s with
  | String "`"%char r =>
      let body := Str.take_while (fun c => negb (Char.eqb backtick c)) r in
      if Str.is_empty body then None
      else match Str.drop_while (fun c => negb (Char.eqb backtick c)) r with
           | String _ _ => Some (String.length body + 2)
           | EmptyString => None
           end
  | _ => None
  end.

(** [re.sub] deleting the inline code spans of [s]. *)
Fixpoint sub_code_spans_from (skip : nat) (s : string) : string :=
  match s with
  | EmptyString => EmptyString
  | String c r =>
      match skip with
      | S k => sub_code_spans_from k r
      | O =>
          match code_span_at s with
          | Some n => sub_code_spans_from (n - 1) r
          | None => String c (sub_code_spans_from 0 r)
          end
      end
  end.

Definition sub_code_spans (s : string) : string := sub_code_spans_from 0 s.

(** The separator test of [validate_tables] on a stripped line: one or
    more characters, all white space, pipes, colons or dashes. *)
Definition separator_row (s : string) : bool :=
  Str.truthy s
  && Str.all (fun c => Char.is_space c || Char.eqb c pipe
                       || Char.eqb c colon || Char.eqb c "-"%char) s.

End Re.

(** ** The validator object *)

(** The fields of [MarkdownValidator] that a run changes; [file_path]
    and [base_dir] are in the [World]. *)
Record MarkdownValidator : Type := mkValidator {
  content : string;
  lines : list string;
  issues : list ValidationIssue
}.

(** [MarkdownValidator(file_path)]. *)
Definition init : MarkdownValidator :=
  {| content := ""; lines := []; issues := [] |}.

(** [self.issues.append(x)], and several of them in a row. *)
Definition append_issues (v : MarkdownValidator) (new : list ValidationIssue)
    : MarkdownValidator :=
  {| content := content v; lines := lines v; issues := issues v ++ new |}.

(** [if c: self.issues.append(x)]. *)
Definition when (c : bool) (x : ValidationIssue) : list ValidationIssue :=
  if c then [x] else [].

(** A loop [for i, line in enumerate(self.lines, 1)] whose body updates
    the local variables [st] and appends issues. *)
Fixpoint scan {St : Type}
    (body : St -> nat -> string -> St * list ValidationIssue)
    (st : St) (i : nat) (ls : list string) : St * list ValidationIssue :=
  match ls with
  | [] => (st, [])
  | line :: rest =>
      let '(st1, new) := body st i line in
      let '(st2, more) := scan body st1 (S i) rest in
      (st2, new ++ more)
  end.

(** The same loop with a body that keeps no local state. *)
Fixpoint scan_lines (body : nat -> string -> list ValidationIssue)
    (i : nat) (ls : list string) : list ValidationIssue :=
  match ls with
  | [] => []
  | line :: rest => body i line ++ scan_lines body (S i) rest
  end.

(** *** [load_file] *)

Definition load_file (W : World) (v : MarkdownValidator)
    : bool * MarkdownValidator :=
  match read_file W with
  | ReadOk text =>
      (true, {| content := text; lines := Str.split newline text;
                issues := issues v |})
  | ReadNotFound =>
      (false, append_issues v
         [ {| line_number := 0; issue_type := file_error;
              severity := sev_error;
              description := "File not found: " +:+ file_path W;
              original_text := "";
              suggested_fix := "Verify the file path is correct" |} ])
  | ReadFailed message =>
      (false, append_issues v
         [ {| line_number := 0; issue_type := file_error;
              severity := sev_error;
              description := "Error reading file: " +:+ message;
              original_text := "";
              suggested_fix := "Check file permissions and encoding" |} ])
  end.

(** *** [validate_headers] *)

(** One iteration: [prev_level] is the only local variable that survives. *)
Definition header_body (prev_level i : nat) (line : string)
    : nat * list ValidationIssue :=
  match Re.header_pattern line with
  | Some m =>
      let hashes := Re.group1 m in
      let text := Str.strip (Re.group2 m) in
      let level := String.length hashes in
      (level,
       when (negb (String.eqb (Str.char_at level line) " ") && Str.truthy text)
         {| line_number := i; issue_type := header_format;
            severity := sev_warning;
            description := "Missing space after header hashes";
            original_text := line;
            suggested_fix := hashes +:+ " " +:+ text |}
       ++ when (negb (Str.truthy text))
         {| line_number := i; issue_type := empty_header;
            severity := sev_warning;
            description := "Empty header text";
            original_text := line;
            suggested_fix := "Add descriptive header text" |}
       ++ when ((0 <? prev_level) && (prev_level + 1 <? level))
         {| line_number := i; issue_type := header_hierarchy;
            severity := sev_info;
            description := "Header level skipped from H"
                           +:+ Str.of_nat prev_level +:+ " to H"
                           +:+ Str.of_nat level;
            original_text := line;
            suggested_fix := Str.repeat hash (prev_level + 1) +:+ " " +:+ text |}
       ++ when (Str.endswith_char hash text)
         {| line_number := i; issue_type := trailing_hashes;
            severity := sev_info;
            description := "Trailing hashes in header (not recommended)";
            original_text := line;
            suggested_fix :=
              hashes +:+ " " +:+ Str.rstrip (Str.rstrip_char hash text) |})
  | None => (prev_level, [])
  end.

Definition header_issues (ls : list string) : list ValidationIssue :=
  snd (scan header_body 0 1 ls).

Definition validate_headers (v : MarkdownValidator) : MarkdownValidator :=
  append_issues v (header_issues (lines v)).

(** *** [_validate_url] *)

(** [url.startswith(('http://', 'https://', 'mailto:', 'tel:'))]. *)
Definition has_link_scheme (url : string) : bool :=
  Str.startswith "http://" url || Str.startswith "https://" url
  || Str.startswith "mailto:" url || Str.startswith "tel:" url.

(** The issues one call appends.  The anchor branch compiles a pattern
    and returns without using it. *)
Definition _validate_url (W : World) (line_num : nat) (url original : string)
    : list ValidationIssue :=
  if Str.startswith "#" url then []
  else if negb (has_link_scheme url) then
    let full_path := path_join (base_dir W) (Str.before_char hash url) in
    when (negb (path_exists W full_path))
      {| line_number := line_num; issue_type := broken_local_link;
         severity := sev_error;
         description := "Local file not found: " +:+ url;
         original_text := original;
         suggested_fix := "Verify file exists at: " +:+ full_path |}
  else
    match urlparse W url with
    | None => []
    | Some (scheme, netloc) =>
        if Str.is_empty scheme || Str.is_empty netloc then
          [ {| line_number := line_num; issue_type := invalid_url_format;
               severity := sev_error;
               description := "Invalid URL format: " +:+ url;
               original_text := original;
               suggested_fix := "Use full URL with scheme: https://" +:+ url |} ]
        else
          match requests_head W url with
          | HeadStatus status_code =>
              when (400 <=? status_code)
                {| line_number := line_num; issue_type := broken_external_link;
                   severity := sev_error;
                   description := "Broken link (HTTP "
                                  +:+ Str.of_nat status_code +:+ "): " +:+ url;
                   original_text := original;
                   suggested_fix := "Update URL or remove the link" |}
          | HeadTimeout =>
              [ {| line_number := line_num; issue_type := link_timeout;
                   severity := sev_warning;
                   description := "Link timed out: " +:+ url;
                   original_text := original;
                   suggested_fix := "Verify URL is accessible" |} ]
          | HeadRequestException => []
          | HeadOtherException => []
          end
    end.

(** *** [validate_links] *)

(** First pass: [reference_definitions[ref_id] = (i, match.group(2))]. *)
Definition record_definitions (i : nat) (line : string)
    (defs : gmap string (nat * string)) : gmap string (nat * string) :=
  fold_left
    (fun d m => <[ Str.lower (Re.group1 m) := (i, Re.group2 m) ]> d)
    (Re.ref_def_finditer line) defs.

Fixpoint collect_definitions (i : nat) (ls : list string)
    (defs : gmap string (nat * string)) : gmap string (nat * string) :=
  match ls with
  | [] => defs
  | line :: rest => collect_definitions (S i) rest (record_definitions i line defs)
  end.

Definition reference_definitions (ls : list string)
    : gmap string (nat * string) :=
  collect_definitions 1 ls ∅.

(** Second pass, the inline links of one line. *)
Definition inline_link_issues (W : World) (i : nat) (m : Re.rmatch)
    : list ValidationIssue :=
  let link_text := Re.group1 m in
  let url := Str.strip (Re.group2 m) in
  when (Str.is_empty link_text)
    {| line_number := i; issue_type := empty_link_text;
       severity := sev_warning;
       description := "Empty link text";
       original_text := Re.group0 m;
       suggested_fix := "[descriptive text](" +:+ url +:+ ")" |}
  ++ (if Str.is_empty url then
        [ {| line_number := i; issue_type := empty_url;
             severity := sev_error;
             description := "Empty URL in link";
             original_text := Re.group0 m;
             suggested_fix := "[" +:+ link_text +:+ "](https://example.com)" |} ]
      else _validate_url W i url (Re.group0 m)).

(** [match.group(2).lower() if match.group(2) else match.group(1).lower()]. *)
Definition ref_id_of (m : Re.rmatch) : string :=
  if Str.truthy (Re.group2 m) then Str.lower (Re.group2 m)
  else Str.lower (Re.group1 m).

(** Second pass, the reference links of one line. *)
Definition ref_link_issues (defs : gmap string (nat * string)) (i : nat)
    (m : Re.rmatch) : list ValidationIssue :=
  let ref_id := ref_id_of m in
  match defs !! ref_id with
  | Some _ => []
  | None =>
      [ {| line_number := i; issue_type := undefined_reference;
           severity := sev_error;
           description := "Undefined link reference: [" +:+ ref_id +:+ "]";
           original_text := Re.group0 m;
           suggested_fix := "Add reference definition: [" +:+ ref_id
                            +:+ "]: https://example.com" |} ]
  end.

Definition links_body (W : World) (defs : gmap string (nat * string))
    (i : nat) (line : string) : list ValidationIssue :=
  flat_map (inline_link_issues W i) (Re.finditer Re.link_pattern_at line)
  ++ flat_map (ref_link_issues defs i) (Re.finditer Re.ref_link_pattern_at line).

Definition link_issues (W : World) (ls : list string) : list ValidationIssue :=
  scan_lines (links_body W (reference_definitions ls)) 1 ls.

Definition validate_links (W : World) (v : MarkdownValidator)
    : MarkdownValidator :=
  append_issues v (link_issues W (lines v)).

(** *** [validate_code_blocks] *)

(** The local variables of the loop. *)
Record FenceState : Type := mkFence {
  in_fenced_block : bool;
  block_start_line : nat;
  fence_char : option ascii;
  fence_count : nat
}.

Definition fence_init : FenceState :=
  {| in_fenced_block := false; block_start_line := 0;
     fence_char := None; fence_count := 0 |}.

Definition option_ascii_eqb (a : ascii) (b : option ascii) : bool :=
  match b with
  | Some c => Char.eqb a c
  | None => false
  end.

(** The first half of the body: the fence bookkeeping.  [group(1)] holds
    at least three characters, so [group(1)[0]] exists. *)
Definition fence_step (st : FenceState) (i : nat) (line : string) : FenceState :=
  match Re.fence_pattern (Str.strip line) with
  | Some fence_match =>
      match Re.group1 fence_match with
      | String current_char _ =>
          let current_count := String.length (Re.group1 fence_match) in
          if negb (in_fenced_block st) then
            {| in_fenced_block := true; block_start_line := i;
               fence_char := Some current_char; fence_count := current_count |}
          else if option_ascii_eqb current_char (fence_char st)
                  && (fence_count st <=? current_count) then
            {| in_fenced_block := false;
               block_start_line := block_start_line st;
               fence_char := None; fence_count := fence_count st |}
          else st
      | EmptyString => st
      end
  | None => st
  end.

(** The second half of the body: stray backticks outside a block. *)
Definition backtick_issues (st : FenceState) (i : nat) (line : string)
    : list ValidationIssue :=
  if negb (in_fenced_block st) then
    let backtick_count := Str.count_char backtick line in
    let triple_count := Str.count_triple backtick line in
    let single_count := backtick_count - triple_count * 3 in
    when (negb (single_count mod 2 =? 0)
          && negb (Str.startswith "```" (Str.strip line)))
      {| line_number := i; issue_type := unmatched_backticks;
         severity := sev_warning;
         description := "Possible unmatched inline code backticks";
         original_text := line;
         suggested_fix := "Ensure backticks are properly paired" |}
  else [].

Definition code_block_body (st : FenceState) (i : nat) (line : string)
    : FenceState * list ValidationIssue :=
  let st' := fence_step st i line in
  (st', backtick_issues st' i line).

(** The closing fence the unclosed-block issue suggests. *)
Definition closing_fence (st : FenceState) : string :=
  if option_ascii_eqb backtick (fence_char st)
  then Str.times "`" (fence_count st)
  else Str.times "~" (fence_count st).

(** What follows the loop. *)
Definition unclosed_issues (ls : list string) (st : FenceState)
    : list ValidationIssue :=
  when (in_fenced_block st)
    {| line_number := block_start_line st; issue_type := unclosed_code_block;
       severity := sev_error;
       description := "Unclosed fenced code block";
       original_text := nth (block_start_line st - 1) ls "";
       suggested_fix := "Add closing fence: " +:+ closing_fence st |}.

Definition code_block_issues (ls : list string) : list ValidationIssue :=
  let '(st, found) := scan code_block_body fence_init 1 ls in
  found ++ unclosed_issues ls st.

Definition validate_code_blocks (v : MarkdownValidator) : MarkdownValidator :=
  append_issues v (code_block_issues (lines v)).

(** *** [validate_lists] *)

(** The local variables [prev_indent] (written, never read) and
    [prev_was_list]. *)
Record ListState : Type := mkListState {
  prev_indent : Z;
  prev_was_list : bool
}.

Definition list_init : ListState :=
  {| prev_indent := (-1)%Z; prev_was_list := false |}.

Definition list_body (st : ListState) (i : nat) (line : string)
    : ListState * list ValidationIssue :=
  match Re.list_item_pattern line with
  | Some (g1, marker, item) =>
      let indent := String.length g1 in
      ({| prev_indent := Z.of_nat indent; prev_was_list := true |},
       when (prev_was_list st && (0 <? indent)
             && negb (indent mod 2 =? 0) && negb (indent mod 4 =? 0))
         {| line_number := i; issue_type := inconsistent_indent;
            severity := sev_info;
            description := "Non-standard list indentation (use 2 or 4 spaces)";
            original_text := line;
            suggested_fix :=
              Str.times "  " (indent / 2) +:+ marker +:+ " " +:+ item |}
       ++ when (negb (Str.truthy (Str.strip item)))
         {| line_number := i; issue_type := empty_list_item;
            severity := sev_warning;
            description := "Empty list item";
            original_text := line;
            suggested_fix := "Add content or remove empty item" |})
  | None =>
      (if Str.truthy (Str.strip line)
       then {| prev_indent := prev_indent st; prev_was_list := false |}
       else st,
       [])
  end.

Definition list_issues (ls : list string) : list ValidationIssue :=
  snd (scan list_body list_init 1 ls).

Definition validate_lists (v : MarkdownValidator) : MarkdownValidator :=
  append_issues v (list_issues (lines v)).

(** *** [validate_images] *)

(** [url.startswith(('http://', 'https://', 'data:'))]. *)
Definition has_image_scheme (url : string) : bool :=
  Str.startswith "http://" url || Str.startswith "https://" url
  || Str.startswith "data:" url.

Definition image_issues_of (W : World) (i : nat) (m : Re.rmatch)
    : list ValidationIssue :=
  let alt_text := Re.group1 m in
  let url := Str.strip (Re.group2 m) in
  when (Str.is_empty alt_text)
    {| line_number := i; issue_type := missing_alt_text;
       severity := sev_warning;
       description := "Image missing alt text (accessibility issue)";
       original_text := Re.group0 m;
       suggested_fix := "![descriptive alt text](" +:+ url +:+ ")" |}
  ++ (if Str.is_empty url then
        [ {| line_number := i; issue_type := empty_image_url;
             severity := sev_error;
             description := "Empty image URL";
             original_text := Re.group0 m;
             suggested_fix := "![" +:+ alt_text +:+ "](path/to/image.png)" |} ]
      else if negb (has_image_scheme url) then
        let img_path := path_join (base_dir W) url in
        when (negb (path_exists W img_path))
          {| line_number := i; issue_type := missing_image;
             severity := sev_error;
             description := "Image file not found: " +:+ url;
             original_text := Re.group0 m;
             suggested_fix := "Add image at: " +:+ img_path |}
      else []).

Definition images_body (W : World) (i : nat) (line : string)
    : list ValidationIssue :=
  flat_map (image_issues_of W i) (Re.finditer Re.image_pattern_at line).

Definition image_issues (W : World) (ls : list string) : list ValidationIssue :=
  scan_lines (images_body W) 1 ls.

Definition validate_images (W : World) (v : MarkdownValidator)
    : MarkdownValidator :=
  append_issues v (image_issues W (lines v)).

(** *** [validate_emphasis] *)

Definition emphasis_body (i : nat) (line : string) : list ValidationIssue :=
  if Str.startswith "```" (Str.strip line)
     || Str.startswith "~~~" (Str.strip line)
  then []
  else
    let line_without_code := Re.sub_code_spans line in
    when (negb (Str.count_double "*"%char line_without_code mod 2 =? 0))
      {| line_number := i; issue_type := unmatched_bold;
         severity := sev_warning;
         description := "Possibly unmatched bold markers (**)";
         original_text := line;
         suggested_fix := "Ensure ** markers are properly paired" |}
    ++ when (negb (Str.count_double "_"%char line_without_code mod 2 =? 0))
      {| line_number := i; issue_type := unmatched_bold;
         severity := sev_warning;
         description := "Possibly unmatched bold markers (__)";
         original_text := line;
         suggested_fix := "Ensure __ markers are properly paired" |}.

Definition emphasis_issues (ls : list string) : list ValidationIssue :=
  scan_lines emphasis_body 1 ls.

Definition validate_emphasis (v : MarkdownValidator) : MarkdownValidator :=
  append_issues v (emphasis_issues (lines v)).

(** *** [validate_tables] *)

(** The local variables of the loop. *)
Record TableState : Type := mkTable {
  in_table : bool;
  table_start : nat;
  header_cols : nat
}.

Definition table_init : TableState :=
  {| in_table := false; table_start := 0; header_cols := 0 |}.

(** [len([c for c in stripped.split('|') if c.strip() or c == ''])]. *)
Definition count_cols (stripped : string) : nat :=
  length (List.filter (fun c => Str.truthy (Str.strip c) || Str.is_empty c)
                 (Str.split pipe stripped)).

Definition table_body (st : TableState) (i : nat) (line : string)
    : TableState * list ValidationIssue :=
  if Str.contains_char pipe line then
    let stripped := Str.strip line in
    if Str.startswith "|" stripped || Str.endswith_char pipe stripped then
      let cols := count_cols stripped in
      if negb (in_table st) then
        ({| in_table := true; table_start := i; header_cols := cols |}, [])
      else
        (st,
         when (negb (cols =? header_cols st) && negb (Re.separator_row stripped))
           {| line_number := i; issue_type := table_column_mismatch;
              severity := sev_error;
              description := "Table has inconsistent columns (expected "
                             +:+ Str.of_nat (header_cols st) +:+ ", found "
                             +:+ Str.of_nat cols +:+ ")";
              original_text := line;
              suggested_fix := "Adjust to " +:+ Str.of_nat (header_cols st)
                               +:+ " columns" |})
    else (st, [])
  else
    (if in_table st && Str.truthy (Str.strip line)
     then {| in_table := false; table_start := table_start st;
             header_cols := header_cols st |}
     else st,
     []).

Definition table_issues (ls : list string) : list ValidationIssue :=
  snd (scan table_body table_init 1 ls).

Definition validate_tables (v : MarkdownValidator) : MarkdownValidator :=
  append_issues v (table_issues (lines v)).

(** *** [validate_all] *)

(** [list.sort(key=...)] is stable: an element goes after the elements
    with a smaller key and before those with an equal or larger key that
    followed it in the input. *)
Fixpoint insert_by_line (x : ValidationIssue) (l : list ValidationIssue)
    : list ValidationIssue :=
  match l with
  | [] => [x]
  | y :: r =>
      if line_number x <=? line_number y then x :: y :: r
      else y :: insert_by_line x r
  end.

Fixpoint sort_by_line (l : list ValidationIssue) : list ValidationIssue :=
  match l with
  | [] => []
  | x :: r => insert_by_line x (sort_by_line r)
  end.

(** The seven checkers in the order [validate_all] calls them. *)
Definition run_checkers (W : World) (v : MarkdownValidator) : MarkdownValidator :=
  validate_tables
    (validate_emphasis
       (validate_images W
          (validate_lists
             (validate_code_blocks
                (validate_links W
                   (validate_headers v)))))).

(** [asdict] keeps the six fields, so the result is the list of issues. *)
Definition validate_all (W : World) : list ValidationIssue :=
  let '(loaded, v) := load_file W init in
  if negb loaded then issues v
  else sort_by_line (issues (run_checkers W v)).

(** *** [validate_markdown_file] *)

(** The dictionary the entry point returns. *)
Record Report : Type := mkReport {
  report_file_path : string;
  total_issues : nat;
  errors : nat;
  warnings : nat;
  info : nat;
  report_issues : list ValidationIssue;
  summary : string
}.

Definition with_severity (s : Severity) (l : list ValidationIssue)
    : list ValidationIssue :=
  List.filter (fun x => severity_eqb (severity x) s) l.

Definition validate_markdown_file (W : World) : Report :=
  let found := validate_all W in
  let errs := with_severity sev_error found in
  let warns := with_severity sev_warning found in
  let infos := with_severity sev_info found in
  {| report_file_path := file_path W;
     total_issues := length found;
     errors := length errs;
     warnings := length warns;
     info := length infos;
     report_issues := found;
     summary := "Found " +:+ Str.of_nat (length errs) +:+ " errors, "
                +:+ Str.of_nat (length warns) +:+ " warnings, and "
                +:+ Str.of_nat (length infos) +:+ " info messages" |}.

(** * Notions used to state the properties *)

(** The local variables of a [scan] loop after it has run over [ls]. *)
Definition final_state {St : Type}
    (body : St -> nat -> string -> St * list ValidationIssue)
    (st : St) (i : nat) (ls : list string) : St :=
  fst (scan body st i ls).

Definition line_le (a b : ValidationIssue) : Prop :=
  line_number a <= line_number b.

Definition on_line (k : nat) (x : ValidationIssue) : bool :=
  line_number x =? k.

Definition of_type (t : IssueType) (x : ValidationIssue) : bool :=
  issue_type_eqb (issue_type x) t.

(** What the seven checkers append, in the order they run. *)
Definition checker_output (W : World) (ls : list string)
    : list ValidationIssue :=
  header_issues ls ++ link_issues W ls ++ code_block_issues ls
  ++ list_issues ls ++ image_issues W ls ++ emphasis_issues ls
  ++ table_issues ls.

(** The issue sink just before [validate_all] returns or sorts it. *)
Definition sink_before_sort (W : World) : list ValidationIssue :=
  match read_file W with
  | ReadOk text => checker_output W (Str.split newline text)
  | _ => issues (snd (load_file W init))
  end.

Definition is_load_failure (r : read_result) : bool :=
  match r with
  | ReadOk _ => false
  | _ => true
  end.

(** The character and count of the fence a line is, as the loop body of
    [validate_code_blocks] computes them. *)
Definition fence_of (line : string) : option (ascii * nat) :=
  match Re.fence_pattern (Str.strip line) with
  | Some fence_match =>
      match Re.group1 fence_match with
      | String current_char _ =>
          Some (current_char, String.length (Re.group1 fence_match))
      | EmptyString => None
      end
  | None => None
  end.

(** A fence line in the words of the specification: once trimmed, three
    or more identical backticks or tildes and an optional language tag. *)
Definition is_fence_line (line : string) (c : ascii) (n : nat) : Prop :=
  (c = backtick \/ c = tilde) /\ 3 <= n
  /\ exists tag : string,
       Str.all Char.is_word tag = true
       /\ Str.strip line = Str.repeat c n +:+ tag.


(** The fence bookkeeping after the loop of [validate_code_blocks] has
    run over the lines [ls], counted from line 1. *)
Definition fence_state_after (ls : list string) : FenceState :=
  final_state code_block_body fence_init 1 ls.


(** What is known of an open block after the lines [pre]. *)
Definition open_block_known (pre : list string) : Prop :=
  let st := fence_state_after pre in
  in_fenced_block st = true ->
  exists c n opening,
    1 <= block_start_line st <= length pre
    /\ nth_error pre (block_start_line st - 1) = Some opening
    /\ fence_of opening = Some (c, n)
    /\ fence_char st = Some c
    /\ fence_count st = n
    /\ in_fenced_block
         (fence_state_after (firstn (block_start_line st - 1) pre)) = false
    /\ (forall j, block_start_line st <= j <= length pre ->
          in_fenced_block (fence_state_after (firstn j pre)) = true).


(** The identifier a line defines when it is a reference definition:
    the first group of [ref_def_pattern], lowercased. *)
Definition definition_id (line : string) : option string :=
  match Re.ref_def_pattern line with
  | Some m => Some (Str.lower (Re.group1 m))
  | None => None
  end.




(** The two tests of [validate_tables] that make a line a table row. *)
Definition is_table_row (line : string) : bool :=
  Str.contains_char pipe line
  && (Str.startswith "|" (Str.strip line)
      || Str.endswith_char pipe (Str.strip line)).

(** The table bookkeeping after the loop of [validate_tables] has run
    over the lines [ls], counted from line 1. *)
Definition table_state_after (ls : list string) : TableState :=
  final_state table_body table_init 1 ls.


(** The issue reported at line [i] for the row [line] with [found]
    columns in a table whose header has [expected] columns. *)
Definition mismatch_issue (i : nat) (line : string) (expected found : nat)
    : ValidationIssue :=
  {| line_number := i; issue_type := table_column_mismatch;
     severity := sev_error;
     description := "Table has inconsistent columns (expected "
                    +:+ Str.of_nat expected +:+ ", found "
                    +:+ Str.of_nat found +:+ ")";
     original_text := line;
     suggested_fix := "Adjust to " +:+ Str.of_nat expected +:+ " columns" |}.

(** A non-empty url that is neither an anchor nor one of the schemes
    either checker exempts: both checkers read it as a path relative to
    the base directory. *)
Definition plain_relative_url (url : string) : bool :=
  negb (Str.is_empty url) && negb (Str.startswith "#" url)
  && negb (has_link_scheme url) && negb (has_image_scheme url).

(** The issue of the link checker for a missing local file. *)
Definition broken_local_link_issue (W : World) (i : nat) (url original : string)
    : ValidationIssue :=
  {| line_number := i; issue_type := broken_local_link;
     severity := sev_error;
     description := "Local file not found: " +:+ url;
     original_text := original;
     suggested_fix := "Verify file exists at: "
                      +:+ path_join (base_dir W) (Str.before_char hash url) |}.

(** The issue of the image checker for a missing local file. *)
Definition missing_image_issue (W : World) (i : nat) (url original : string)
    : ValidationIssue :=
  {| line_number := i; issue_type := missing_image;
     severity := sev_error;
     description := "Image file not found: " +:+ url;
     original_text := original;
     suggested_fix := "Add image at: " +:+ path_join (base_dir W) url |}.

(** The statement of C10 as the specification words it: every image on
    line [S i] with a plain relative url whose file is missing gets both
    a [broken_local_link] and a [missing_image] error at that line. *)
Definition every_missing_image_reported_twice : Prop :=
  forall (W : World) (text : string) (i : nat) (line : string) (m : Re.rmatch),
    read_file W = ReadOk text ->
    nth_error (Str.split newline text) i = Some line ->
    In m (Re.finditer Re.image_pattern_at line) ->
    plain_relative_url (Str.strip (Re.group2 m)) = true ->
    path_exists W (path_join (base_dir W) (Str.strip (Re.group2 m))) = false ->
    (exists x, In x (validate_all W) /\ line_number x = S i
               /\ issue_type x = broken_local_link /\ severity x = sev_error)
    /\ (exists y, In y (validate_all W) /\ line_number y = S i
                  /\ issue_type y = missing_image /\ severity y = sev_error).

(** Two worlds for C10: nothing exists in the first; the file [pic.png]
    exists in the second. *)
Definition world_nothing_exists (text : string) : World :=
  {| file_path := "doc.md"; base_dir := "/docs"; read_file := ReadOk text;
     path_exists := fun _ => false; urlparse := fun _ => None;
     requests_head := fun _ => HeadRequestException |}.

Definition world_with_picture (text : string) : World :=
  {| file_path := "doc.md"; base_dir := "/docs"; read_file := ReadOk text;
     path_exists := fun p => String.eqb p "/docs/pic.png";
     urlparse := fun _ => None;
     requests_head := fun _ => HeadRequestException |}.

(** The checker's column count of a line. *)
Definition checker_cols (line : string) : nat :=
  count_cols (Str.strip line).



(** A row written with both outer pipes: [|c1|c2|...|cn|]. *)
Fixpoint cells_then_pipes (cells : list string) : string :=
  match cells with
  | [] => ""
  | c :: rest => c +:+ String pipe (cells_then_pipes rest)
  end.

Definition row_of_cells (cells : list string) : string :=
  String pipe (cells_then_pipes cells).

(** A cell that holds something: no pipe inside, not blank. *)
Definition is_filled_cell (c : string) : bool :=
  negb (Str.contains_char pipe c) && Str.truthy (Str.strip c).


(** * Notions used to state further properties *)

(** The issue quotes the line: its original text is an excerpt of it. *)
Definition excerpt_of (line : string) (x : ValidationIssue) : Prop :=
  exists a b : string, line = a +:+ original_text x +:+ b.

(** The issue points at a line of the document and quotes it. *)
Definition located_in (ls : list string) (x : ValidationIssue) : Prop :=
  exists line : string,
    1 <= line_number x
    /\ nth_error ls (line_number x - 1) = Some line
    /\ excerpt_of line x.

(** The severity each issue type is reported with. *)
Definition severity_of (t : IssueType) : Severity :=
  match t with
  | file_error => sev_error
  | header_format => sev_warning
  | empty_header => sev_warning
  | header_hierarchy => sev_info
  | trailing_hashes => sev_info
  | empty_link_text => sev_warning
  | empty_url => sev_error
  | undefined_reference => sev_error
  | broken_local_link => sev_error
  | invalid_url_format => sev_error
  | broken_external_link => sev_error
  | link_timeout => sev_warning
  | unmatched_backticks => sev_warning
  | unclosed_code_block => sev_error
  | inconsistent_indent => sev_info
  | empty_list_item => sev_warning
  | missing_alt_text => sev_warning
  | empty_image_url => sev_error
  | missing_image => sev_error
  | unmatched_bold => sev_warning
  | table_column_mismatch => sev_error
  end.

(** A property of an issue that may mention the line it was found on and
    that line's number. *)
Definition issue_property : Type := nat -> string -> ValidationIssue -> Prop.

(** The property holds of the issue for some line of the document. *)
Definition holds_at_some_line (Q : issue_property) (first : nat)
    (ls : list string) (x : ValidationIssue) : Prop :=
  exists (k : nat) (line : string),
    nth_error ls k = Some line /\ Q (first + k) line x.

(** The issue has the severity of its type. *)
Definition has_own_severity : issue_property :=
  fun _ _ x => severity x = severity_of (issue_type x).

(** The issue is at line [i] and quotes [line]. *)
Definition at_line_quoting : issue_property :=
  fun i line x => line_number x = i /\ excerpt_of line x.

(** A line that cannot close a block opened by [n] characters [c]: no
    fence line at all, or a fence of another character or of fewer
    characters. *)
Definition keeps_block_open (c : ascii) (n : nat) (line : string) : Prop :=
  match fence_of line with
  | None => True
  | Some (c', k) => c' <> c \/ k < n
  end.

(** An [unmatched_backticks] issue at line [k]. *)
Definition backticks_at (k : nat) (x : ValidationIssue) : bool :=
  on_line k x && of_type unmatched_backticks x.

(** An issue of type [t] at line [k]. *)
Definition typed_at (t : IssueType) (k : nat) (x : ValidationIssue) : bool :=
  on_line k x && of_type t x.

(** The list bookkeeping after the loop of [validate_lists] has run over
    the lines [ls], counted from line 1. *)
Definition list_state_after (ls : list string) : ListState :=
  final_state list_body list_init 1 ls.

Definition is_list_item (line : string) : bool :=
  match Re.list_item_pattern line with
  | Some _ => true
  | None => false
  end.

(** A line of white space only, the empty line included. *)
Definition is_blank (line : string) : bool :=
  Str.is_empty (Str.strip line).

(** The issue reported at line [i] for the list item [line] whose groups
    are the indentation [g1], the marker and the content. *)
Definition indent_issue (i : nat) (line g1 marker item : string)
    : ValidationIssue :=
  {| line_number := i; issue_type := inconsistent_indent;
     severity := sev_info;
     description := "Non-standard list indentation (use 2 or 4 spaces)";
     original_text := line;
     suggested_fix :=
       Str.times "  " (String.length g1 / 2) +:+ marker +:+ " " +:+ item |}.

(** Two worlds with the same file, base directory and file system; they
    may differ in [urlparse] and in the network. *)
Definition same_files (W W' : World) : Prop :=
  file_path W = file_path W' /\ base_dir W = base_dir W'
  /\ read_file W = read_file W'
  /\ forall p, path_exists W p = path_exists W' p.

(** No inline link of the line has a url with one of the link schemes. *)
Definition links_are_local (line : string) : Prop :=
  Forall (fun m => has_link_scheme (Str.strip (Re.group2 m)) = false)
         (Re.finditer Re.link_pattern_at line).

(** The level tracker [prev_level] after the loop of [validate_headers]
    has run over the lines [ls]. *)
Definition header_level_after (ls : list string) : nat :=
  final_state header_body 0 1 ls.

(** A fix that is a heading of level 2 to 5. *)
Definition suggests_inner_level (x : ValidationIssue) : Prop :=
  exists (k : nat) (text : string),
    2 <= k <= 5 /\ suggested_fix x = Str.repeat hash k +:+ " " +:+ text.

(** A heading written as the checker wants it: [n] hashes, [1 <= n <= 6],
    one space, then a text that is not blank and does not end with a
    hash. *)
Definition clean_heading (n : nat) (text line : string) : Prop :=
  line = Str.repeat hash n +:+ " " +:+ text
  /\ 1 <= n <= 6
  /\ Str.is_empty (Str.strip text) = false
  /\ Str.endswith_char hash (Str.strip text) = false.

(** The issue reported at line [i] for the heading [line] of text [text]
    and level [level] that follows a heading of level [prev]. *)
Definition hierarchy_issue (i : nat) (line text : string) (prev level : nat)
    : ValidationIssue :=
  {| line_number := i; issue_type := header_hierarchy;
     severity := sev_info;
     description := "Header level skipped from H" +:+ Str.of_nat prev
                    +:+ " to H" +:+ Str.of_nat level;
     original_text := line;
     suggested_fix := Str.repeat hash (prev + 1) +:+ " " +:+ text |}.
(** * Properties *)

(** ** Strings *)

Lemma char_eqb_eq a b : Char.eqb a b = true <-> a = b.
Proof. unfold Char.eqb. apply Ascii.eqb_eq. Qed.

Lemma char_eqb_refl a : Char.eqb a a = true.
Proof. apply char_eqb_eq. reflexivity. Qed.

Lemma char_eqb_neq a b : Char.eqb a b = false <-> a <> b.
Proof. unfold Char.eqb. apply Ascii.eqb_neq. Qed.

Lemma append_cons c s t : String c s +:+ t = String c (s +:+ t).
Proof. reflexivity. Qed.

Lemma append_empty_l s : "" +:+ s = s.
Proof. reflexivity. Qed.

Lemma append_assoc s t u : (s +:+ t) +:+ u = s +:+ (t +:+ u).
Proof.
  induction s as [|c s IH]; [reflexivity|].
  rewrite !append_cons, IH. reflexivity.
Qed.

Lemma length_append s t :
  String.length (s +:+ t) = String.length s + String.length t.
Proof.
  induction s as [|c s IH]; [reflexivity|].
  rewrite append_cons. cbn [String.length]. rewrite IH. reflexivity.
Qed.

Lemma take_drop_while p s : Str.take_while p s +:+ Str.drop_while p s = s.
Proof.
  induction s as [|c s IH]; [reflexivity|].
  cbn [Str.take_while Str.drop_while].
  destruct (p c); [rewrite append_cons, IH|]; reflexivity.
Qed.

Lemma take_while_eqb_repeat c s :
  Str.take_while (Char.eqb c) s =
  Str.repeat c (String.length (Str.take_while (Char.eqb c) s)).
Proof.
  induction s as [|d s IH]; cbn; [reflexivity|].
  destruct (Char.eqb c d) eqn:E; cbn; [|reflexivity].
  apply char_eqb_eq in E. subst d. rewrite <- IH. reflexivity.
Qed.

Lemma length_repeat c n : String.length (Str.repeat c n) = n.
Proof. induction n as [|n IH]; cbn; [|rewrite IH]; reflexivity. Qed.


(** A run of [c] followed by a tag that does not start with [c]. *)
Lemma take_while_run c n tag :
  Str.take_while (Char.eqb c) tag = "" ->
  Str.take_while (Char.eqb c) (Str.repeat c n +:+ tag) = Str.repeat c n.
Proof.
  intros H. induction n as [|n IH]; [exact H|].
  cbn [Str.repeat]. rewrite append_cons. cbn [Str.take_while].
  rewrite char_eqb_refl, IH. reflexivity.
Qed.

Lemma drop_while_run c n tag :
  Str.take_while (Char.eqb c) tag = "" ->
  Str.drop_while (Char.eqb c) (Str.repeat c n +:+ tag) = tag.
Proof.
  intros H. induction n as [|n IH].
  - cbn [Str.repeat]. rewrite append_empty_l.
    destruct tag as [|d t]; [reflexivity|]. cbn in *.
    destruct (Char.eqb c d); [discriminate|reflexivity].
  - cbn [Str.repeat]. rewrite append_cons. cbn [Str.drop_while].
    rewrite char_eqb_refl. exact IH.
Qed.

Lemma all_word_no_head c tag :
  Char.is_word c = false -> Str.all Char.is_word tag = true ->
  Str.take_while (Char.eqb c) tag = "".
Proof.
  intros Hc Ht. destruct tag as [|d t]; [reflexivity|]. cbn in *.
  destruct (Char.eqb c d) eqn:E; [|reflexivity].
  apply char_eqb_eq in E. subst d. rewrite Hc in Ht. discriminate.
Qed.

(** The lines of a text hold no line feed. *)
Lemma split_no_separator sep s :
  Forall (fun line => Str.contains_char sep line = false) (Str.split sep s).
Proof.
  induction s as [|c r IH]; [repeat constructor|].
  cbn [Str.split]. destruct (Char.eqb sep c) eqn:E.
  - constructor; [reflexivity|exact IH].
  - destruct (Str.split sep r) as [|h t].
    + repeat constructor. cbn [Str.contains_char]. rewrite E. reflexivity.
    + inversion IH; subst. constructor; [|assumption].
      cbn [Str.contains_char]. rewrite E. assumption.
Qed.

(** ** Loops *)

Section Loops.

Context {St : Type}.
Variable body : St -> nat -> string -> St * list ValidationIssue.

Lemma scan_nil st i : scan body st i [] = (st, []).
Proof. reflexivity. Qed.

Lemma scan_cons st i line rest :
  scan body st i (line :: rest) =
  (fst (scan body (fst (body st i line)) (S i) rest),
   snd (body st i line) ++ snd (scan body (fst (body st i line)) (S i) rest)).
Proof.
  cbn [scan]. destruct (body st i line) as [st1 new]. cbn [fst snd].
  destruct (scan body st1 (S i) rest) as [st2 more]. reflexivity.
Qed.

Lemma scan_app st i a b :
  scan body st i (a ++ b) =
  (fst (scan body (final_state body st i a) (i + length a) b),
   snd (scan body st i a)
   ++ snd (scan body (final_state body st i a) (i + length a) b)).
Proof.
  revert st i. induction a as [|x a IH]; intros st i.
  - simpl. rewrite Nat.add_0_r. unfold final_state. simpl.
    destruct (scan body st i b); reflexivity.
  - rewrite <- app_comm_cons, !scan_cons, IH. unfold final_state.
    rewrite scan_cons. simpl.
    replace (i + S (length a)) with (S i + length a) by lia.
    rewrite app_assoc. reflexivity.
Qed.

Lemma final_state_app st i a b :
  final_state body st i (a ++ b) =
  final_state body (final_state body st i a) (i + length a) b.
Proof. unfold final_state at 1. rewrite scan_app. reflexivity. Qed.

Lemma final_state_snoc st i a line :
  final_state body st i (a ++ [line]) =
  fst (body (final_state body st i a) (i + length a) line).
Proof.
  rewrite final_state_app. unfold final_state at 1.
  rewrite scan_cons. reflexivity.
Qed.

End Loops.

Lemma scan_lines_app body i a b :
  scan_lines body i (a ++ b) =
  scan_lines body i a ++ scan_lines body (i + length a) b.
Proof.
  revert i. induction a as [|x a IH]; intros i; simpl.
  - rewrite Nat.add_0_r. reflexivity.
  - rewrite IH, app_assoc.
    replace (i + S (length a)) with (S i + length a) by lia. reflexivity.
Qed.

(** ** The final sort *)

Lemma insert_by_line_perm x l : Permutation (x :: l) (insert_by_line x l).
Proof.
  induction l as [|y r IH]; simpl.
  - apply Permutation_refl.
  - destruct (line_number x <=? line_number y).
    + apply Permutation_refl.
    + eapply perm_trans; [apply perm_swap|]. apply perm_skip, IH.
Qed.

Lemma sort_by_line_perm l : Permutation l (sort_by_line l).
Proof.
  induction l as [|x r IH]; simpl.
  - apply perm_nil.
  - eapply perm_trans; [apply perm_skip, IH|]. apply insert_by_line_perm.
Qed.

Lemma insert_by_line_hd x y l :
  line_le y x -> HdRel line_le y l -> HdRel line_le y (insert_by_line x l).
Proof.
  intros Hyx Hl. destruct l as [|z r]; simpl.
  - constructor. exact Hyx.
  - destruct (line_number x <=? line_number z); constructor.
    + exact Hyx.
    + inversion Hl; assumption.
Qed.

Lemma insert_by_line_sorted x l :
  Sorted line_le l -> Sorted line_le (insert_by_line x l).
Proof.
  induction l as [|y r IH]; intros Hs; simpl.
  - repeat constructor.
  - destruct (line_number x <=? line_number y) eqn:E.
    + constructor; [exact Hs|]. constructor.
      apply Nat.leb_le in E. exact E.
    + inversion Hs as [|? ? Hr Hhd]; subst. constructor.
      * apply IH, Hr.
      * apply insert_by_line_hd; [|exact Hhd].
        apply Nat.leb_gt in E. unfold line_le. lia.
Qed.

Lemma sort_by_line_sorted l : Sorted line_le (sort_by_line l).
Proof.
  induction l as [|x r IH]; simpl.
  - constructor.
  - apply insert_by_line_sorted, IH.
Qed.

(** Inserting an issue leaves the issues of every line in their order. *)
Lemma insert_by_line_on_line k x l :
  List.filter (on_line k) (insert_by_line x l) =
  List.filter (on_line k) (x :: l).
Proof.
  induction l as [|y r IH].
  - reflexivity.
  - cbn [insert_by_line].
    destruct (line_number x <=? line_number y) eqn:E; [reflexivity|].
    apply Nat.leb_gt in E.
    cbn [List.filter] in *. rewrite IH. unfold on_line.
    destruct (line_number x =? k) eqn:Ex, (line_number y =? k) eqn:Ey;
      try reflexivity.
    apply Nat.eqb_eq in Ex, Ey. lia.
Qed.

Lemma sort_by_line_on_line k l :
  List.filter (on_line k) (sort_by_line l) = List.filter (on_line k) l.
Proof.
  induction l as [|x r IH].
  - reflexivity.
  - cbn [sort_by_line]. rewrite insert_by_line_on_line.
    cbn [List.filter]. rewrite IH. reflexivity.
Qed.

(** ** The orchestrator *)

Lemma run_checkers_issues W v :
  issues (run_checkers W v) = issues v ++ checker_output W (lines v).
Proof.
  unfold run_checkers, validate_tables, validate_emphasis, validate_images,
    validate_lists, validate_code_blocks, validate_links, validate_headers,
    append_issues, checker_output.
  cbn [issues lines]. rewrite <- !app_assoc. reflexivity.
Qed.

Lemma validate_all_loaded W text :
  read_file W = ReadOk text ->
  validate_all W = sort_by_line (checker_output W (Str.split newline text)).
Proof.
  intros H. unfold validate_all, load_file. rewrite H. cbn [negb].
  rewrite run_checkers_issues. reflexivity.
Qed.

Lemma validate_all_sink W :
  validate_all W =
  match read_file W with
  | ReadOk _ => sort_by_line (sink_before_sort W)
  | _ => sink_before_sort W
  end.
Proof.
  unfold sink_before_sort. destruct (read_file W) as [text| |msg] eqn:E.
  - apply validate_all_loaded, E.
  - unfold validate_all, load_file. rewrite E. reflexivity.
  - unfold validate_all, load_file. rewrite E. reflexivity.
Qed.

Lemma validate_all_sorted (W : World) : Sorted line_le (validate_all W).
Proof.
  rewrite validate_all_sink. unfold sink_before_sort.
  destruct (read_file W) as [text| |msg] eqn:E.
  - apply sort_by_line_sorted.
  - unfold load_file. rewrite E. cbn. repeat constructor.
  - unfold load_file. rewrite E. cbn. repeat constructor.
Qed.

(** The usual reading of sortedness: adjacent issues are in order. *)
Lemma validate_all_adjacent (W : World) (i : nat) (a b : ValidationIssue) :
  nth_error (validate_all W) i = Some a ->
  nth_error (validate_all W) (S i) = Some b ->
  line_number a <= line_number b.
Proof.
  pose proof (validate_all_sorted W) as Hs.
  revert i. induction Hs as [|x l Hl IH Hhd]; intros i Ha Hb.
  - destruct i; discriminate.
  - destruct i as [|i].
    + cbn in Ha, Hb. injection Ha as <-. destruct l as [|y r]; [discriminate|].
      cbn in Hb. injection Hb as <-. inversion Hhd; assumption.
    + cbn in Ha, Hb. eapply IH; eassumption.
Qed.

(** C3. For every world (hence every document), the list [validate_all]
    returns is sorted by [line_number] in nondecreasing order, and for
    every line number the issues of that line appear in the result in the
    order in which the checkers appended them to the sink: the sort is
    stable, so checker order breaks ties. *)
Theorem validate_all_sorted_stable (W : World) :
  Sorted line_le (validate_all W)
  /\ (forall k : nat,
        List.filter (on_line k) (validate_all W) =
        List.filter (on_line k) (sink_before_sort W))
  /\ Permutation (sink_before_sort W) (validate_all W).
Proof.
  split; [apply validate_all_sorted|].
  rewrite validate_all_sink.
  destruct (read_file W) as [text| |msg].
  - split; [intros k; apply sort_by_line_on_line|apply sort_by_line_perm].
  - split; [reflexivity|apply Permutation_refl].
  - split; [reflexivity|apply Permutation_refl].
Qed.

(** C8. When loading fails (the file is missing or reading raises), the
    result of [validate_all] is a one-element list whose issue has line
    number 0, type [file_error] and severity [error]; nothing a checker
    could add is in it, and the entry point reports one issue, one error. *)
Theorem load_failure_single_issue (W : World) :
  is_load_failure (read_file W) = true ->
  exists d f : string,
    validate_all W =
      [ {| line_number := 0; issue_type := file_error; severity := sev_error;
           description := d; original_text := ""; suggested_fix := f |} ]
    /\ report_issues (validate_markdown_file W) = validate_all W
    /\ total_issues (validate_markdown_file W) = 1
    /\ errors (validate_markdown_file W) = 1
    /\ warnings (validate_markdown_file W) = 0
    /\ info (validate_markdown_file W) = 0.
Proof.
  intros H. unfold validate_markdown_file, validate_all, load_file.
  destruct (read_file W) as [text| |msg]; [discriminate| |].
  - exists ("File not found: " +:+ file_path W),
      "Verify the file path is correct". cbn. repeat split.
  - exists ("Error reading file: " +:+ msg),
      "Check file permissions and encoding". cbn. repeat split.
Qed.

Lemma load_failure_single_issue_witness :
  is_load_failure ReadNotFound = true
  /\ exists d f : string,
       validate_all (mkWorld "missing.md" "/docs" ReadNotFound
                       (fun _ => true) (fun _ => None)
                       (fun _ => HeadStatus 200)) =
         [ {| line_number := 0; issue_type := file_error;
              severity := sev_error;
              description := d; original_text := ""; suggested_fix := f |} ].
Proof.
  split; [reflexivity|].
  destruct (load_failure_single_issue
              (mkWorld "missing.md" "/docs" ReadNotFound
                 (fun _ => true) (fun _ => None) (fun _ => HeadStatus 200))
              eq_refl) as (d & f & H & _).
  exists d, f. exact H.
Defined.

(** C9. Validating a document whose text is empty gives no issue at all:
    the loader turns the empty text into the single empty line, every
    checker passes over it in silence, and the report counts are zero. *)
Theorem empty_document_clean
    (path dir : string) (ex : string -> bool)
    (up : string -> option (string * string)) (rh : string -> head_result) :
  let W := mkWorld path dir (ReadOk "") ex up rh in
  lines (snd (load_file W init)) = [""]
  /\ validate_all W = []
  /\ validate_markdown_file W =
       {| report_file_path := path; total_issues := 0; errors := 0;
          warnings := 0; info := 0; report_issues := [];
          summary := "Found 0 errors, 0 warnings, and 0 info messages" |}.
Proof.
  cbv zeta. repeat split; vm_compute; reflexivity.
Qed.

(** ** The fence state machine *)

Lemma fence_pattern_run s m :
  Re.fence_pattern s = Some m ->
  exists c n,
    (c = backtick \/ c = tilde) /\ 3 <= n
    /\ Re.group1 m = Str.repeat c n
    /\ Str.all Char.is_word (Re.group2 m) = true
    /\ s = Str.repeat c n +:+ Re.group2 m.
Proof.
  unfold Re.fence_pattern. destruct s as [|c r]; [discriminate|].
  destruct (Char.eqb c backtick || Char.eqb c tilde) eqn:Ec; [|discriminate].
  pose proof (take_while_eqb_repeat c (String c r)) as Hrun.
  pose proof (take_drop_while (Char.eqb c) (String c r)) as Hsplit.
  set (run := Str.take_while (Char.eqb c) (String c r)) in *.
  set (tag := Str.drop_while (Char.eqb c) (String c r)) in *.
  destruct (3 <=? String.length run) eqn:En; [|discriminate].
  destruct (Str.all Char.is_word tag) eqn:Et; [|discriminate].
  intros H. injection H as <-. cbn [Re.group1 Re.group2].
  exists c, (String.length run).
  split.
  { apply orb_true_iff in Ec. destruct Ec as [E|E]; apply char_eqb_eq in E; auto. }
  split; [apply Nat.leb_le, En|].
  split; [exact Hrun|].
  split; [exact Et|].
  rewrite <- Hrun. symmetry. exact Hsplit.
Qed.

Lemma fence_pattern_intro c n tag :
  (c = backtick \/ c = tilde) -> 3 <= n ->
  Str.all Char.is_word tag = true ->
  Re.fence_pattern (Str.repeat c n +:+ tag) =
  Some (Re.mkMatch (Str.repeat c n +:+ tag) (Str.repeat c n) tag).
Proof.
  intros Hc Hn Ht.
  assert (Hw : Char.is_word c = false) by (destruct Hc; subst; reflexivity).
  pose proof (all_word_no_head c tag Hw Ht) as Hhd.
  unfold Re.fence_pattern.
  destruct n as [|n]; [lia|]. cbn [Str.repeat]. rewrite append_cons.
  replace (Char.eqb c backtick || Char.eqb c tilde) with true
    by (destruct Hc; subst; reflexivity).
  rewrite <- append_cons.
  change (String c (Str.repeat c n)) with (Str.repeat c (S n)).
  rewrite take_while_run, drop_while_run by exact Hhd.
  rewrite length_repeat, Ht.
  replace (3 <=? S n) with true by (symmetry; apply Nat.leb_le; lia).
  reflexivity.
Qed.

Lemma fence_of_spec line c n :
  fence_of line = Some (c, n) <-> is_fence_line line c n.
Proof.
  unfold fence_of, is_fence_line. split.
  - destruct (Re.fence_pattern (Str.strip line)) as [m|] eqn:E; [|discriminate].
    destruct (fence_pattern_run _ _ E) as (c' & n' & Hc & Hn & Hg & Ht & Hs).
    rewrite Hg. destruct n' as [|n']; [lia|]. cbn [Str.repeat].
    intros [= <- <-]. cbn [String.length]. rewrite length_repeat.
    split; [exact Hc|]. split; [exact Hn|].
    exists (Re.group2 m). split; [exact Ht|exact Hs].
  - intros (Hc & Hn & tag & Ht & Hs). rewrite Hs.
    rewrite fence_pattern_intro by assumption. cbn [Re.group1].
    destruct n as [|n]; [lia|]. cbn [Str.repeat String.length].
    rewrite length_repeat. reflexivity.
Qed.

Lemma fence_step_eq st i line :
  fence_step st i line =
  match fence_of line with
  | None => st
  | Some (c, n) =>
      if negb (in_fenced_block st) then
        {| in_fenced_block := true; block_start_line := i;
           fence_char := Some c; fence_count := n |}
      else if option_ascii_eqb c (fence_char st) && (fence_count st <=? n) then
        {| in_fenced_block := false; block_start_line := block_start_line st;
           fence_char := None; fence_count := fence_count st |}
      else st
  end.
Proof.
  unfold fence_step, fence_of.
  destruct (Re.fence_pattern (Str.strip line)) as [m|]; [|reflexivity].
  destruct (Re.group1 m); reflexivity.
Qed.

Lemma fence_state_after_snoc pre line :
  fence_state_after (pre ++ [line]) =
  fence_step (fence_state_after pre) (S (length pre)) line.
Proof.
  unfold fence_state_after. rewrite final_state_snoc. reflexivity.
Qed.



(** ** The unclosed block *)

Lemma scan_Forall {St : Type}
    (body : St -> nat -> string -> St * list ValidationIssue)
    (P : ValidationIssue -> Prop) :
  (forall st i line, Forall P (snd (body st i line))) ->
  forall ls st i, Forall P (snd (scan body st i ls)).
Proof.
  intros Hb ls. induction ls as [|line rest IH]; intros st i.
  - constructor.
  - rewrite scan_cons. cbn [snd]. apply Forall_app. split; [apply Hb|apply IH].
Qed.

Lemma filter_none {A : Type} (f : A -> bool) (l : list A) :
  Forall (fun x => f x = false) l -> List.filter f l = [].
Proof.
  induction 1 as [|x l Hx _ IH]; [reflexivity|].
  cbn [List.filter]. rewrite Hx. exact IH.
Qed.

Lemma backtick_issues_type st i line :
  Forall (fun x => of_type unclosed_code_block x = false)
         (backtick_issues st i line).
Proof.
  unfold backtick_issues, when.
  destruct (negb (in_fenced_block st)); [|constructor].
  match goal with |- context [if ?b then _ else _] => destruct b end;
    repeat constructor.
Qed.

Lemma code_block_loop_types ls st i :
  List.filter (of_type unclosed_code_block)
              (snd (scan code_block_body st i ls)) = [].
Proof.
  apply filter_none, scan_Forall. intros st' i' line.
  apply backtick_issues_type.
Qed.

(** One step of the bookkeeping either changes nothing, or opens a block
    at the current line, or leaves the block closed. *)
Lemma fence_step_cases st i line :
  fence_step st i line = st
  \/ (exists c n, fence_of line = Some (c, n)
        /\ in_fenced_block st = false
        /\ fence_step st i line =
           {| in_fenced_block := true; block_start_line := i;
              fence_char := Some c; fence_count := n |})
  \/ in_fenced_block (fence_step st i line) = false.
Proof.
  rewrite fence_step_eq. destruct (fence_of line) as [[c n]|]; [|auto].
  destruct (in_fenced_block st) eqn:Ho; cbn [negb].
  - destruct (option_ascii_eqb c (fence_char st) && (fence_count st <=? n));
      auto.
  - right. left. exists c, n. auto.
Qed.

Lemma open_block_invariant pre : open_block_known pre.
Proof.
  induction pre as [|line pre IH] using rev_ind.
  - unfold open_block_known. cbn. discriminate.
  - unfold open_block_known in *. cbv zeta in *.
    rewrite fence_state_after_snoc.
    set (st := fence_state_after pre) in *.
    rewrite length_app. cbn [length].
    destruct (fence_step_cases st (S (length pre)) line)
      as [Hsame | [(c & n & Hf & Hclosed & Hopen) | Hclosed]].
    + rewrite Hsame. intros Ho.
      destruct (IH Ho) as (c & n & opening & Hr & Hn & Hf & Hc & Hk & Hb & Ha).
      exists c, n, opening.
      split; [lia|].
      split; [rewrite nth_error_app1 by lia; exact Hn|].
      split; [exact Hf|]. split; [exact Hc|]. split; [exact Hk|].
      split.
      * rewrite firstn_app.
        replace (block_start_line st - 1 - length pre) with 0 by lia.
        cbn [firstn]. rewrite app_nil_r. exact Hb.
      * intros j Hj. destruct (Nat.eq_dec j (length pre + 1)) as [->|Hne].
        -- rewrite firstn_all2 by (rewrite length_app; cbn; lia).
           rewrite fence_state_after_snoc. fold st. rewrite Hsame. exact Ho.
        -- rewrite firstn_app.
           replace (j - length pre) with 0 by lia.
           cbn [firstn]. rewrite app_nil_r. apply Ha. lia.
    + rewrite Hopen. cbn [in_fenced_block block_start_line fence_char
                           fence_count]. intros _.
      exists c, n, line.
      split; [lia|].
      replace (S (length pre) - 1) with (length pre) by lia.
      split; [rewrite nth_error_app2 by lia; rewrite Nat.sub_diag; reflexivity|].
      split; [exact Hf|]. split; [reflexivity|]. split; [reflexivity|].
      split.
      * rewrite firstn_app, Nat.sub_diag, firstn_all. cbn [firstn].
        rewrite app_nil_r. exact Hclosed.
      * intros j Hj. assert (j = length pre + 1) as -> by lia.
        rewrite firstn_all2 by (rewrite length_app; cbn; lia).
        rewrite fence_state_after_snoc. fold st. rewrite Hopen. reflexivity.
    + rewrite Hclosed. discriminate.
Qed.




(** ** Headings *)

Lemma header_pattern_seven (rest : string) :
  Re.header_pattern ("#######" +:+ rest) =
  Some (Re.mkMatch ("#######" +:+ rest) "######" (String hash rest)).
Proof. reflexivity. Qed.

(** C6. What the code does with a line that begins with seven or more
    [#]: the pattern matches it as a heading of level 6 whose text starts
    with the seventh [#], the level tracker is set to 6, and the checker
    reports [header_format] for the line; on the line [####### Title] the
    whole run returns that warning.  The claim says such a line is not a
    heading and gets no header issue. *)
Theorem seven_hashes_reported (prev i : nat) (rest : string) :
  let line := "#######" +:+ rest in
  Re.header_pattern line = Some (Re.mkMatch line "######" (String hash rest))
  /\ fst (header_body prev i line) = 6
  /\ In {| line_number := i; issue_type := header_format;
           severity := sev_warning;
           description := "Missing space after header hashes";
           original_text := line;
           suggested_fix := "###### " +:+ Str.strip (String hash rest) |}
        (snd (header_body prev i line))
  /\ validate_all (mkWorld "doc.md" "/docs" (ReadOk "####### Title")
                     (fun _ => false) (fun _ => None)
                     (fun _ => HeadRequestException)) =
     [ {| line_number := 1; issue_type := header_format;
          severity := sev_warning;
          description := "Missing space after header hashes";
          original_text := "####### Title";
          suggested_fix := "###### # Title" |} ].
Proof.
  cbv zeta. split; [apply header_pattern_seven|].
  unfold header_body. rewrite header_pattern_seven.
  cbn [Re.group1 Re.group2 fst snd]. split; [reflexivity|].
  split; [|vm_compute; reflexivity].
  apply in_or_app. left.
  replace (negb (String.eqb (Str.char_at (String.length "######")
                               ("#######" +:+ rest)) " ")
           && Str.truthy (Str.strip (String hash rest)))
    with true by reflexivity.
  left. reflexivity.
Qed.

(** ** The reference table *)

Lemma record_definitions_eq i line defs :
  record_definitions i line defs =
  match Re.ref_def_pattern line with
  | Some m => <[ Str.lower (Re.group1 m) := (i, Re.group2 m) ]> defs
  | None => defs
  end.
Proof.
  unfold record_definitions, Re.ref_def_finditer.
  destruct (Re.ref_def_pattern line); reflexivity.
Qed.

Lemma collect_definitions_app i a b defs :
  collect_definitions i (a ++ b) defs =
  collect_definitions (i + length a) b (collect_definitions i a defs).
Proof.
  revert i defs. induction a as [|x a IH]; intros i defs.
  - cbn. rewrite Nat.add_0_r. reflexivity.
  - cbn [app collect_definitions length]. rewrite IH.
    replace (i + S (length a)) with (S i + length a) by lia. reflexivity.
Qed.

(** Lines that do not define [ref_id] leave its entry alone. *)
Lemma collect_definitions_other i ls defs ref_id :
  Forall (fun line => definition_id line <> Some ref_id) ls ->
  collect_definitions i ls defs !! ref_id = defs !! ref_id.
Proof.
  intros H. revert i defs.
  induction H as [|line rest Hline _ IH]; intros i defs; [reflexivity|].
  cbn [collect_definitions]. rewrite IH, record_definitions_eq.
  unfold definition_id in Hline.
  destruct (Re.ref_def_pattern line) as [m|]; [|reflexivity].
  apply lookup_insert_ne. intros E. apply Hline. rewrite E. reflexivity.
Qed.

(** C5. When several lines define the same identifier (compared after
    lowercasing), the table built by the first pass maps the identifier
    to the last of them: a definition line followed by no other
    definition of its identifier is the one the table holds, whatever
    earlier lines defined. *)
Theorem last_definition_wins (pre post : list string) (line : string)
    (m : Re.rmatch) :
  Re.ref_def_pattern line = Some m ->
  Forall (fun later => definition_id later <> Some (Str.lower (Re.group1 m)))
         post ->
  reference_definitions (pre ++ line :: post) !! Str.lower (Re.group1 m) =
  Some (S (length pre), Re.group2 m).
Proof.
  intros Hm Hpost. unfold reference_definitions.
  rewrite collect_definitions_app. cbn [collect_definitions].
  rewrite collect_definitions_other by exact Hpost.
  rewrite record_definitions_eq, Hm. cbn [Nat.add].
  apply lookup_insert_eq.
Qed.

Lemma last_definition_wins_witness :
  Re.ref_def_pattern "[REF]: http://last.example" =
    Some (Re.mkMatch "[REF]: http://last.example" "REF" "http://last.example")
  /\ reference_definitions
       ["[Ref]: http://first.example"; "text";
        "[REF]: http://last.example"; "[other]: http://x.example"] !! "ref" =
     Some (3, "http://last.example").
Proof.
  split; [reflexivity|].
  apply (last_definition_wins
           ["[Ref]: http://first.example"; "text"]
           ["[other]: http://x.example"]
           "[REF]: http://last.example"
           (Re.mkMatch "[REF]: http://last.example" "REF"
              "http://last.example")).
  - reflexivity.
  - constructor; [|constructor]. cbn. discriminate.
Defined.

(** ** Reference links *)



Lemma scan_lines_ext body1 body2 i ls :
  (forall j line, body1 j line = body2 j line) ->
  scan_lines body1 i ls = scan_lines body2 i ls.
Proof.
  intros H. revert i. induction ls as [|line rest IH]; intros i.
  - reflexivity.
  - cbn [scan_lines]. rewrite H, IH. reflexivity.
Qed.




Lemma flat_map_pointwise {A B : Type} (g h : A -> list B) l :
  (forall x, g x = h x) -> flat_map g l = flat_map h l.
Proof.
  intros H. induction l as [|x l IH]; [reflexivity|].
  cbn [flat_map]. rewrite H, IH. reflexivity.
Qed.









(** ** Line numbers of the issues of a loop *)

Section LineNumbers.

Context {St : Type}.
Variable body : St -> nat -> string -> St * list ValidationIssue.
Hypothesis body_line :
  forall st i line, Forall (fun x => line_number x = i) (snd (body st i line)).

Lemma scan_line_numbers ls st i :
  Forall (fun x => i <= line_number x < i + length ls)
         (snd (scan body st i ls)).
Proof.
  revert st i. induction ls as [|line rest IH]; intros st i.
  - constructor.
  - rewrite scan_cons. cbn [snd length]. rewrite Forall_app. split.
    + eapply List.Forall_impl; [|apply body_line]. cbn. intros x Hx. lia.
    + eapply List.Forall_impl; [|apply IH]. cbn. intros x Hx. lia.
Qed.

Lemma scan_off_line ls st i k :
  k < i \/ i + length ls <= k ->
  List.filter (on_line k) (snd (scan body st i ls)) = [].
Proof.
  intros Hk. apply filter_none.
  eapply List.Forall_impl; [|apply scan_line_numbers]. cbn. intros x Hx.
  unfold on_line. apply Nat.eqb_neq. lia.
Qed.

Lemma body_on_line st i line :
  List.filter (on_line i) (snd (body st i line)) = snd (body st i line).
Proof.
  pose proof (body_line st i line) as H.
  induction H as [|x l Hx _ IH]; [reflexivity|].
  cbn [List.filter]. unfold on_line at 1. rewrite Hx, Nat.eqb_refl, IH.
  reflexivity.
Qed.

(** The issues of line [i + length a] are those its iteration appends. *)
Lemma scan_on_line st i a line b :
  List.filter (on_line (i + length a))
              (snd (scan body st i (a ++ line :: b))) =
  snd (body (final_state body st i a) (i + length a) line).
Proof.
  rewrite scan_app. cbn [snd]. rewrite scan_cons. cbn [snd].
  rewrite !List.filter_app, body_on_line.
  rewrite !scan_off_line by lia. rewrite app_nil_r. reflexivity.
Qed.

End LineNumbers.

(** ** Tables *)

Lemma table_body_line st i line :
  Forall (fun x => line_number x = i) (snd (table_body st i line)).
Proof.
  unfold table_body, when.
  repeat match goal with
         | |- context [if ?b then _ else _] => destruct b
         end; cbn [snd]; repeat constructor.
Qed.

Lemma table_body_row st i line :
  is_table_row line = true ->
  table_body st i line =
  if negb (in_table st) then
    ({| in_table := true; table_start := i;
        header_cols := count_cols (Str.strip line) |}, [])
  else
    (st,
     when (negb (count_cols (Str.strip line) =? header_cols st)
           && negb (Re.separator_row (Str.strip line)))
       (mismatch_issue i line (header_cols st) (count_cols (Str.strip line)))).
Proof.
  unfold is_table_row, table_body. intros H.
  apply andb_true_iff in H. destruct H as [H1 H2]. rewrite H1, H2.
  reflexivity.
Qed.


Lemma rstrip_by_keeps p s c :
  Str.last s = Some c -> p c = false -> Str.rstrip_by p s = s.
Proof.
  intros Hl Hc. induction s as [|a r IH]; [discriminate|].
  cbn [Str.rstrip_by]. destruct r as [|b r'].
  - cbn in Hl. injection Hl as ->. cbn. rewrite Hc. reflexivity.
  - rewrite IH by exact Hl. cbn [Str.is_empty]. rewrite andb_false_r.
    reflexivity.
Qed.

Lemma last_cells_then_pipes c cells :
  Str.last (String c (cells_then_pipes cells)) = Some c \/
  Str.last (String c (cells_then_pipes cells)) = Some pipe.
Proof.
  revert c. induction cells as [|x rest IH]; intros c; [left; reflexivity|].
  right. cbn [cells_then_pipes].
  assert (H : forall d, Str.last (String d (x +:+ String pipe
                                     (cells_then_pipes rest))) = Some pipe).
  { induction x as [|e x IHx]; intros d.
    - rewrite append_empty_l.
      change (Str.last (String d (String pipe (cells_then_pipes rest))))
        with (Str.last (String pipe (cells_then_pipes rest))).
      destruct (IH pipe) as [E|E]; exact E.
    - rewrite append_cons.
      change (Str.last (String d (String e (x +:+ String pipe
                                   (cells_then_pipes rest)))))
        with (Str.last (String e (x +:+ String pipe
                                   (cells_then_pipes rest)))).
      apply IHx. }
  apply H.
Qed.

Lemma strip_row_of_cells cells :
  Str.strip (row_of_cells cells) = row_of_cells cells.
Proof.
  unfold Str.strip, Str.lstrip_by, row_of_cells.
  change (Str.drop_while Char.is_space (String pipe (cells_then_pipes cells)))
    with (String pipe (cells_then_pipes cells)).
  apply (rstrip_by_keeps _ _ pipe); [|reflexivity].
  destruct (last_cells_then_pipes pipe cells) as [E|E]; exact E.
Qed.

Lemma split_cell c rest :
  Str.contains_char pipe c = false ->
  Str.split pipe (c +:+ String pipe rest) = c :: Str.split pipe rest.
Proof.
  induction c as [|d c IH]; intros H.
  - rewrite append_empty_l. cbn [Str.split]. rewrite char_eqb_refl.
    reflexivity.
  - cbn [Str.contains_char] in H. apply orb_false_iff in H.
    destruct H as [Hd Hc]. rewrite append_cons. cbn [Str.split].
    rewrite Hd, (IH Hc). reflexivity.
Qed.

Lemma split_cells_then_pipes cells :
  Forall (fun c => is_filled_cell c = true) cells ->
  Str.split pipe (cells_then_pipes cells) = cells ++ [""].
Proof.
  induction 1 as [|c rest Hc _ IH]; [reflexivity|].
  unfold is_filled_cell in Hc. apply andb_true_iff in Hc.
  destruct Hc as [Hc _]. apply negb_true_iff in Hc.
  cbn [cells_then_pipes]. rewrite (split_cell _ _ Hc), IH. reflexivity.
Qed.

(** A row of [n] filled cells between outer pipes counts [n + 2] for the
    checker: the two empty outer segments are counted as well. *)
Lemma checker_cols_row_of_cells cells :
  Forall (fun c => is_filled_cell c = true) cells ->
  checker_cols (row_of_cells cells) = length cells + 2.
Proof.
  intros H. unfold checker_cols, count_cols. rewrite strip_row_of_cells.
  unfold row_of_cells. cbn [Str.split]. rewrite char_eqb_refl.
  rewrite (split_cells_then_pipes _ H). cbn [List.filter Str.is_empty orb].
  rewrite orb_true_r. cbn [length]. rewrite List.filter_app.
  cbn [List.filter Str.is_empty]. rewrite orb_true_r.
  rewrite length_app. cbn [length].
  rewrite forallb_filter_id; [lia|].
  apply forallb_forall. intros c Hin.
  rewrite List.Forall_forall in H. specialize (H c Hin).
  unfold is_filled_cell in H. apply andb_true_iff in H.
  destruct H as [_ ->]. reflexivity.
Qed.




(** ** Images seen by two checkers *)

Lemma scan_lines_In body k ls i line x :
  nth_error ls i = Some line -> In x (body (k + i) line) ->
  In x (scan_lines body k ls).
Proof.
  revert k i. induction ls as [|l rest IH]; intros k i Hn Hx.
  - destruct i; discriminate.
  - cbn [scan_lines]. apply in_or_app. destruct i as [|i].
    + left. injection Hn as ->. rewrite Nat.add_0_r in Hx. exact Hx.
    + right. apply (IH (S k) i); [exact Hn|].
      replace (S k + i) with (k + S i) by lia. exact Hx.
Qed.

Lemma validate_all_In W text x :
  read_file W = ReadOk text ->
  In x (checker_output W (Str.split newline text)) ->
  In x (validate_all W).
Proof.
  intros Hr Hx. rewrite (validate_all_loaded W text Hr).
  eapply Permutation_in; [apply sort_by_line_perm|exact Hx].
Qed.

Lemma plain_relative_url_inv url :
  plain_relative_url url = true ->
  Str.is_empty url = false /\ Str.startswith "#" url = false
  /\ has_link_scheme url = false /\ has_image_scheme url = false.
Proof.
  unfold plain_relative_url. intros H.
  repeat (apply andb_true_iff in H; destruct H as [H ?]).
  repeat split; apply negb_true_iff; assumption.
Qed.

(** The link checker on a match whose url is a missing local file. *)
Lemma inline_link_missing W i m :
  plain_relative_url (Str.strip (Re.group2 m)) = true ->
  path_exists W (path_join (base_dir W)
                   (Str.before_char hash (Str.strip (Re.group2 m)))) = false ->
  In (broken_local_link_issue W i (Str.strip (Re.group2 m)) (Re.group0 m))
     (inline_link_issues W i m).
Proof.
  intros Hu Hp. apply plain_relative_url_inv in Hu.
  destruct Hu as (He & Ha & Hs & _).
  unfold inline_link_issues. apply in_or_app. right. rewrite He.
  unfold _validate_url. rewrite Ha, Hs. cbn [negb]. rewrite Hp.
  left. reflexivity.
Qed.

(** The image checker on a match whose url is a missing local file. *)
Lemma image_missing W i m :
  plain_relative_url (Str.strip (Re.group2 m)) = true ->
  path_exists W (path_join (base_dir W) (Str.strip (Re.group2 m))) = false ->
  In (missing_image_issue W i (Str.strip (Re.group2 m)) (Re.group0 m))
     (image_issues_of W i m).
Proof.
  intros Hu Hp. apply plain_relative_url_inv in Hu.
  destruct Hu as (He & _ & _ & Hs).
  unfold image_issues_of. apply in_or_app. right. rewrite He, Hs.
  cbn [negb]. rewrite Hp. left. reflexivity.
Qed.

(** ** An image with no bracket before it on its line *)

Lemma until_app c body rest :
  Str.contains_char c body = false ->
  Re.until c (body +:+ String c rest) = Some (body, rest).
Proof.
  induction body as [|d body IH]; intros H.
  - rewrite append_empty_l. cbn [Re.until]. rewrite char_eqb_refl. reflexivity.
  - cbn [Str.contains_char] in H. apply orb_false_iff in H.
    destruct H as [Hd Hb]. rewrite append_cons. cbn [Re.until].
    rewrite Hd, (IH Hb). reflexivity.
Qed.

Lemma link_pattern_at_head s m :
  Re.link_pattern_at s = Some m -> exists r, s = String lbracket r.
Proof.
  destruct s as [|c r]; [discriminate|].
  destruct c as [[] [] [] [] [] [] [] []]; try discriminate.
  intros _. exists r. reflexivity.
Qed.

Lemma image_pattern_at_head s m :
  Re.image_pattern_at s = Some m ->
  exists r, s = String bang (String lbracket r).
Proof.
  destruct s as [|c r]; [discriminate|].
  destruct c as [[] [] [] [] [] [] [] []]; try discriminate.
  cbn [Re.image_pattern_at]. destruct (Re.link_pattern_at r) as [l|] eqn:E;
    [|discriminate].
  destruct (link_pattern_at_head _ _ E) as (r' & ->).
  intros _. exists r'. reflexivity.
Qed.

Lemma link_pattern_at_intro alt raw post :
  Str.contains_char rbracket alt = false ->
  Str.contains_char rparen raw = false ->
  Re.link_pattern_at ("[" +:+ alt +:+ "](" +:+ raw +:+ ")" +:+ post) =
  Some (Re.mkMatch ("[" +:+ alt +:+ "](" +:+ raw +:+ ")") alt raw).
Proof.
  intros Ha Hr.
  change ("[" +:+ alt +:+ "](" +:+ raw +:+ ")" +:+ post)
    with (String lbracket
            (alt +:+ String rbracket
               (String lparen (raw +:+ String rparen post)))).
  cbn [Re.link_pattern_at]. rewrite (until_app _ _ _ Ha).
  rewrite (until_app _ _ _ Hr). reflexivity.
Qed.

(** Characters other than the opening bracket start no link match. *)
Lemma finditer_link_prefix pre s :
  Str.contains_char lbracket pre = false ->
  Re.finditer Re.link_pattern_at (pre +:+ s) =
  Re.finditer Re.link_pattern_at s.
Proof.
  unfold Re.finditer. induction pre as [|c pre IH]; intros H; [reflexivity|].
  cbn [Str.contains_char] in H. apply orb_false_iff in H.
  destruct H as [Hc Hp]. rewrite append_cons. cbn [Re.finditer_from].
  destruct (Re.link_pattern_at (String c (pre +:+ s))) as [m|] eqn:E.
  - destruct (link_pattern_at_head _ _ E) as (r & Hr).
    injection Hr as -> _. rewrite char_eqb_refl in Hc. discriminate.
  - apply IH, Hp.
Qed.

Lemma finditer_image_prefix pre s :
  Str.contains_char lbracket pre = false ->
  Re.finditer Re.image_pattern_at (pre +:+ String bang s) =
  Re.finditer Re.image_pattern_at (String bang s).
Proof.
  unfold Re.finditer. induction pre as [|c pre IH]; intros H; [reflexivity|].
  cbn [Str.contains_char] in H. apply orb_false_iff in H.
  destruct H as [Hc Hp]. rewrite append_cons.
  cbn [Re.finditer_from].
  destruct (Re.image_pattern_at (String c (pre +:+ String bang s)))
    as [m|] eqn:E.
  - destruct (image_pattern_at_head _ _ E) as (r & Hr).
    injection Hr as -> Hr. destruct pre as [|d pre].
    + rewrite append_empty_l in Hr. discriminate Hr.
    + rewrite append_cons in Hr. injection Hr as -> _.
      cbn [Str.contains_char] in Hp. rewrite char_eqb_refl in Hp.
      discriminate.
  - apply IH, Hp.
Qed.

(** When no opening bracket precedes an image on its line, both scans
    find it: the image pattern at the [!], the link pattern just after. *)
Lemma image_alone_matched pre alt raw post :
  Str.contains_char lbracket pre = false ->
  Str.contains_char rbracket alt = false ->
  Str.contains_char rparen raw = false ->
  let line := pre +:+ "![" +:+ alt +:+ "](" +:+ raw +:+ ")" +:+ post in
  In (Re.mkMatch ("![" +:+ alt +:+ "](" +:+ raw +:+ ")") alt raw)
     (Re.finditer Re.image_pattern_at line)
  /\ In (Re.mkMatch ("[" +:+ alt +:+ "](" +:+ raw +:+ ")") alt raw)
        (Re.finditer Re.link_pattern_at line).
Proof.
  intros Hp Ha Hr line. unfold line.
  pose proof (link_pattern_at_intro alt raw post Ha Hr) as Hl.
  split.
  - change ("![" +:+ alt +:+ "](" +:+ raw +:+ ")" +:+ post)
      with (String bang ("[" +:+ alt +:+ "](" +:+ raw +:+ ")" +:+ post)).
    rewrite (finditer_image_prefix _ _ Hp).
    unfold Re.finditer. cbn [Re.finditer_from Re.image_pattern_at].
    rewrite Hl. left. reflexivity.
  - change (pre +:+ "![" +:+ alt +:+ "](" +:+ raw +:+ ")" +:+ post)
      with (pre +:+ "!" +:+ ("[" +:+ alt +:+ "](" +:+ raw +:+ ")" +:+ post)).
    rewrite (finditer_link_prefix pre _ Hp).
    rewrite (finditer_link_prefix "!" _ eq_refl).
    change ("[" +:+ alt +:+ "](" +:+ raw +:+ ")" +:+ post)
      with (String lbracket (alt +:+ "](" +:+ raw +:+ ")" +:+ post)) in *.
    unfold Re.finditer. cbn [Re.finditer_from]. rewrite Hl.
    left. reflexivity.
Qed.

(** C10, amended.  For every image found by the image checker on a line,
    if the inline-link scan of that line also finds a match with the same
    parenthesised part, the url (trimmed) is non-empty and starts with
    none of [#], [http://], [https://], [mailto:], [tel:], [data:], and
    neither the path of the url nor the path of the url cut at its first
    [#] exists under the base directory, then the result contains, at
    that line, a [broken_local_link] error from the link checker and a
    [missing_image] error from the image checker, both for that url. *)
Theorem missing_image_reported_twice
    (W : World) (text : string) (i : nat) (line : string)
    (image link : Re.rmatch) :
  read_file W = ReadOk text ->
  nth_error (Str.split newline text) i = Some line ->
  In image (Re.finditer Re.image_pattern_at line) ->
  In link (Re.finditer Re.link_pattern_at line) ->
  Re.group2 link = Re.group2 image ->
  plain_relative_url (Str.strip (Re.group2 image)) = true ->
  path_exists W (path_join (base_dir W) (Str.strip (Re.group2 image))) = false ->
  path_exists W (path_join (base_dir W)
                   (Str.before_char hash (Str.strip (Re.group2 image))))
    = false ->
  In (broken_local_link_issue W (S i) (Str.strip (Re.group2 image))
        (Re.group0 link))
     (validate_all W)
  /\ In (missing_image_issue W (S i) (Str.strip (Re.group2 image))
           (Re.group0 image))
        (validate_all W).
Proof.
  intros Hr Hn Hi Hl Hg Hu Hp Hq. split.
  - apply (validate_all_In W text _ Hr). unfold checker_output.
    apply in_or_app. right. apply in_or_app. left.
    unfold link_issues. apply (scan_lines_In _ 1 _ i line); [exact Hn|].
    unfold links_body. apply in_or_app. left.
    apply in_flat_map. exists link. split; [exact Hl|].
    rewrite <- Hg in *. apply inline_link_missing; assumption.
  - apply (validate_all_In W text _ Hr). unfold checker_output.
    do 4 (apply in_or_app; right). apply in_or_app. left.
    unfold image_issues. apply (scan_lines_In _ 1 _ i line); [exact Hn|].
    unfold images_body. apply in_flat_map. exists image.
    split; [exact Hi|]. apply image_missing; assumption.
Qed.

Lemma missing_image_reported_twice_witness :
  In (broken_local_link_issue
        (world_nothing_exists "see ![alt]( pic.png )") 1 "pic.png"
        "[alt]( pic.png )")
     (validate_all (world_nothing_exists "see ![alt]( pic.png )"))
  /\ In (missing_image_issue
           (world_nothing_exists "see ![alt]( pic.png )") 1 "pic.png"
           "![alt]( pic.png )")
        (validate_all (world_nothing_exists "see ![alt]( pic.png )")).
Proof.
  apply (missing_image_reported_twice
           (world_nothing_exists "see ![alt]( pic.png )")
           "see ![alt]( pic.png )" 0 "see ![alt]( pic.png )"
           (Re.mkMatch "![alt]( pic.png )" "alt" " pic.png ")
           (Re.mkMatch "[alt]( pic.png )" "alt" " pic.png "));
    try reflexivity.
  - left. reflexivity.
  - left. reflexivity.
Defined.

(** C10 as stated fails.  On the line [[see](#top ![alt](pic.png)] the
    inline-link scan matches from the first bracket, with the url
    [#top ![alt](pic.png], an anchor: only [missing_image] is reported.
    On the line [![alt](pic.png#v2)] with [pic.png] present, the link
    checker drops the fragment and finds the file, while the image
    checker looks for [pic.png#v2]: again only [missing_image]. *)
Lemma image_not_always_reported_twice :
  validate_all (world_nothing_exists "[see](#top ![alt](pic.png)") =
    [ missing_image_issue (world_nothing_exists "") 1 "pic.png"
        "![alt](pic.png)" ]
  /\ validate_all (world_with_picture "![alt](pic.png#v2)") =
       [ missing_image_issue (world_with_picture "") 1 "pic.png#v2"
           "![alt](pic.png#v2)" ]
  /\ ~ every_missing_image_reported_twice.
Proof.
  split; [reflexivity|]. split; [reflexivity|].
  intros H.
  destruct (H (world_nothing_exists "[see](#top ![alt](pic.png)")
              "[see](#top ![alt](pic.png)" 0 "[see](#top ![alt](pic.png)"
              (Re.mkMatch "![alt](pic.png)" "alt" "pic.png")
              eq_refl eq_refl (or_introl eq_refl) eq_refl eq_refl)
    as [(x & Hx & _ & Ht & _) _].
  destruct Hx as [<-|[]]. discriminate Ht.
Qed.

(** * Further properties *)

(** ** What every issue of a checker satisfies *)

Lemma append_empty_r s : s +:+ "" = s.
Proof.
  induction s as [|c s IH]; [reflexivity|]. rewrite append_cons, IH.
  reflexivity.
Qed.

Lemma Forall_flat_map_In {A B : Type} (P : B -> Prop) (f : A -> list B) l :
  (forall a, In a l -> Forall P (f a)) -> Forall P (flat_map f l).
Proof.
  induction l as [|a l IH]; intros H; [constructor|].
  cbn [flat_map]. rewrite Forall_app. split.
  - apply H. left. reflexivity.
  - apply IH. intros b Hb. apply H. right. exact Hb.
Qed.

Lemma holds_at_some_line_shift Q i line rest x :
  holds_at_some_line Q (S i) rest x ->
  holds_at_some_line Q i (line :: rest) x.
Proof.
  intros (k & l & Hk & Hq). exists (S k), l. split; [exact Hk|].
  replace (i + S k) with (S i + k) by lia. exact Hq.
Qed.

Lemma holds_at_some_line_head (Q : issue_property) i line rest x :
  Q i line x -> holds_at_some_line Q i (line :: rest) x.
Proof.
  intros Hq. exists 0, line. split; [reflexivity|].
  rewrite Nat.add_0_r. exact Hq.
Qed.

Lemma scan_holds {St : Type}
    (body : St -> nat -> string -> St * list ValidationIssue)
    (Q : issue_property) :
  (forall st i line, Forall (Q i line) (snd (body st i line))) ->
  forall ls st i,
    Forall (holds_at_some_line Q i ls) (snd (scan body st i ls)).
Proof.
  intros Hb ls. induction ls as [|line rest IH]; intros st i.
  - constructor.
  - rewrite scan_cons. cbn [snd]. rewrite Forall_app. split.
    + eapply List.Forall_impl; [|apply Hb]. intros x.
      apply holds_at_some_line_head.
    + eapply List.Forall_impl; [|apply IH]. intros x.
      apply holds_at_some_line_shift.
Qed.

Lemma scan_lines_holds (body : nat -> string -> list ValidationIssue)
    (Q : issue_property) :
  (forall i line, Forall (Q i line) (body i line)) ->
  forall ls i, Forall (holds_at_some_line Q i ls) (scan_lines body i ls).
Proof.
  intros Hb ls. induction ls as [|line rest IH]; intros i.
  - constructor.
  - cbn [scan_lines]. rewrite Forall_app. split.
    + eapply List.Forall_impl; [|apply Hb]. intros x.
      apply holds_at_some_line_head.
    + eapply List.Forall_impl; [|apply IH]. intros x.
      apply holds_at_some_line_shift.
Qed.

Lemma sort_by_line_Forall (P : ValidationIssue -> Prop) l :
  Forall P l -> Forall P (sort_by_line l).
Proof.
  intros H. rewrite List.Forall_forall in *. intros x Hx. apply H.
  eapply Permutation_in; [apply Permutation_sym, sort_by_line_perm|exact Hx].
Qed.

(** Splits a goal about every issue of a list built by the checkers into
    one goal for each issue. *)
Ltac split_issues :=
  repeat match goal with
         | |- Forall _ (_ ++ _) => rewrite Forall_app; split
         | |- Forall _ (when ?c _) => unfold when; destruct c
         | |- Forall _ (if ?c then _ else _) => destruct c
         | |- Forall _ (match ?x with _ => _ end) => destruct x
         | |- Forall _ [] => constructor
         | |- Forall _ (_ :: _) => constructor
         | |- Forall _ _ => progress cbv zeta
         end.

Lemma unclosed_issues_cases ls st :
  unclosed_issues ls st = []
  \/ (in_fenced_block st = true
      /\ unclosed_issues ls st =
         [ {| line_number := block_start_line st;
              issue_type := unclosed_code_block; severity := sev_error;
              description := "Unclosed fenced code block";
              original_text := nth (block_start_line st - 1) ls "";
              suggested_fix := "Add closing fence: " +:+ closing_fence st |} ]).
Proof.
  unfold unclosed_issues, when. destruct (in_fenced_block st); auto.
Qed.

Lemma code_block_issues_eq ls :
  code_block_issues ls =
  snd (scan code_block_body fence_init 1 ls)
  ++ unclosed_issues ls (fence_state_after ls).
Proof.
  unfold code_block_issues, fence_state_after, final_state.
  destruct (scan code_block_body fence_init 1 ls). reflexivity.
Qed.

(** A property that every loop body gives to the issues it appends, and
    that the issue for an unclosed block has, holds of every issue the
    seven checkers append. *)
Lemma checker_output_holds (W : World) (Q : issue_property) (ls : list string) :
  (forall prev i line, Forall (Q i line) (snd (header_body prev i line))) ->
  (forall defs i line, Forall (Q i line) (links_body W defs i line)) ->
  (forall st i line, Forall (Q i line) (backtick_issues st i line)) ->
  Forall (holds_at_some_line Q 1 ls)
         (unclosed_issues ls (fence_state_after ls)) ->
  (forall st i line, Forall (Q i line) (snd (list_body st i line))) ->
  (forall i line, Forall (Q i line) (images_body W i line)) ->
  (forall i line, Forall (Q i line) (emphasis_body i line)) ->
  (forall st i line, Forall (Q i line) (snd (table_body st i line))) ->
  Forall (holds_at_some_line Q 1 ls) (checker_output W ls).
Proof.
  intros Hh Hl Hb Hu Hli Hi He Ht. unfold checker_output.
  repeat (rewrite Forall_app; split).
  - apply scan_holds, Hh.
  - apply scan_lines_holds, Hl.
  - rewrite code_block_issues_eq, Forall_app. split; [|exact Hu].
    apply scan_holds. intros st i line. apply Hb.
  - apply scan_holds, Hli.
  - apply scan_lines_holds, Hi.
  - apply scan_lines_holds, He.
  - apply scan_holds, Ht.
Qed.

(** ** Severity goes with the type *)

Lemma validate_url_severity W i url original :
  Forall (has_own_severity i original) (_validate_url W i url original).
Proof. unfold _validate_url. split_issues; reflexivity. Qed.

Lemma checker_output_severity W ls :
  Forall (fun x => severity x = severity_of (issue_type x))
         (checker_output W ls).
Proof.
  eapply List.Forall_impl;
    [|apply (checker_output_holds W has_own_severity ls)].
  - intros x (k & line & _ & H). exact H.
  - intros prev i line. unfold header_body. 
    destruct (Re.header_pattern line); cbn [snd]; split_issues; reflexivity.
  - intros defs i line. unfold links_body. rewrite Forall_app. split.
    + apply Forall_flat_map_In. intros m _. unfold inline_link_issues.
      rewrite Forall_app. split; [split_issues; reflexivity|].
      destruct (Str.is_empty (Str.strip (Re.group2 m)));
        [split_issues; reflexivity|].
      eapply List.Forall_impl; [|apply validate_url_severity].
      intros x H. exact H.
    + apply Forall_flat_map_In. intros m _. unfold ref_link_issues.
      split_issues; reflexivity.
  - intros st i line. unfold backtick_issues. split_issues; reflexivity.
  - destruct (unclosed_issues_cases ls (fence_state_after ls)) as [->|[Ho ->]];
      repeat constructor.
    destruct ls as [|l ls']; [discriminate Ho|].
    exists 0, l. split; reflexivity.
  - intros st i line. unfold list_body.
    destruct (Re.list_item_pattern line) as [[[g1 marker] item]|];
      cbn [snd]; split_issues; reflexivity.
  - intros i line. unfold images_body. apply Forall_flat_map_In.
    intros m _. unfold image_issues_of. split_issues; reflexivity.
  - intros i line. unfold emphasis_body. split_issues; reflexivity.
  - intros st i line. unfold table_body.
    repeat match goal with
           | |- context [if ?c then _ else _] => destruct c
           end; cbn [snd]; split_issues; reflexivity.
Qed.

(** X1. Whatever the world, every issue [validate_all] returns has the
    severity that goes with its type: the type alone tells a consumer
    whether the issue is an error, a warning or an info. *)
Theorem severity_determined_by_type (W : World) :
  Forall (fun x => severity x = severity_of (issue_type x)) (validate_all W).
Proof.
  rewrite validate_all_sink. unfold sink_before_sort, load_file.
  destruct (read_file W) as [text| |msg].
  - apply sort_by_line_Forall, checker_output_severity.
  - repeat constructor.
  - repeat constructor.
Qed.

Lemma length_by_severity l :
  length l = length (with_severity sev_error l)
             + length (with_severity sev_warning l)
             + length (with_severity sev_info l).
Proof.
  unfold with_severity. induction l as [|x l IH]; [reflexivity|].
  cbn [List.filter length]. destruct (severity x); cbn [severity_eqb length];
    lia.
Qed.

(** X2. In the report of [validate_markdown_file] the three counts add up
    to [total_issues], the listed issues are those of [validate_all], and
    the total is the number of issues the run put in the sink: sorting
    neither drops nor repeats an issue. *)
Theorem report_counts_add_up (W : World) :
  total_issues (validate_markdown_file W) =
    errors (validate_markdown_file W) + warnings (validate_markdown_file W)
    + info (validate_markdown_file W)
  /\ report_issues (validate_markdown_file W) = validate_all W
  /\ total_issues (validate_markdown_file W) = length (sink_before_sort W).
Proof.
  unfold validate_markdown_file.
  cbn [total_issues errors warnings info report_issues].
  split; [apply length_by_severity|]. split; [reflexivity|].
  rewrite validate_all_sink. destruct (read_file W); [|reflexivity..].
  symmetry. apply Permutation_length, sort_by_line_perm.
Qed.

(** ** Every issue points at a line and quotes it *)

Lemma excerpt_whole line x : original_text x = line -> excerpt_of line x.
Proof.
  intros H. exists "", "". rewrite H, append_empty_r. reflexivity.
Qed.

Lemma until_sound c s body rest :
  Re.until c s = Some (body, rest) ->
  s = body +:+ String c rest /\ Str.contains_char c body = false.
Proof.
  revert body. induction s as [|d s IH]; intros body H; [discriminate|].
  cbn [Re.until] in H. destruct (Char.eqb c d) eqn:E.
  - injection H as <- <-. apply char_eqb_eq in E. subst d. split; reflexivity.
  - destruct (Re.until c s) as [[b r]|]; [|discriminate].
    injection H as <- <-. destruct (IH b eq_refl) as [-> Hb].
    split; [reflexivity|]. cbn [Str.contains_char]. rewrite E. exact Hb.
Qed.

(** A match of [link_pattern] at the head of [s] is a prefix of [s], its
    text holds no closing bracket and its url no closing parenthesis. *)
Lemma link_pattern_at_sound s m :
  Re.link_pattern_at s = Some m ->
  Re.group0 m = "[" +:+ Re.group1 m +:+ "](" +:+ Re.group2 m +:+ ")"
  /\ Str.contains_char rbracket (Re.group1 m) = false
  /\ Str.contains_char rparen (Re.group2 m) = false
  /\ exists rest, s = Re.group0 m +:+ rest.
Proof.
  intros H. destruct (link_pattern_at_head _ _ H) as (r & ->).
  cbn [Re.link_pattern_at] in H.
  change (match lbracket with
          | "["%char => _ | _ => _ end)
    with (match Re.until rbracket r with
          | Some (text, String "("%char r2) =>
              match Re.until rparen r2 with
              | Some (url, _) =>
                  Some {| Re.group0 := "[" +:+ text +:+ "](" +:+ url +:+ ")";
                          Re.group1 := text; Re.group2 := url |}
              | None => None
              end
          | _ => None
          end) in H.
  destruct (Re.until rbracket r) as [[text r1]|] eqn:E1; [|discriminate].
  destruct (until_sound _ _ _ _ E1) as [-> Ht].
  destruct r1 as [|c r2]; [discriminate|].
  destruct c as [[] [] [] [] [] [] [] []]; try discriminate.
  destruct (Re.until rparen r2) as [[url r3]|] eqn:E2; [|discriminate].
  destruct (until_sound _ _ _ _ E2) as [-> Hu].
  injection H as <-. cbn [Re.group0 Re.group1 Re.group2].
  split; [reflexivity|]. split; [exact Ht|]. split; [exact Hu|].
  exists r3. rewrite !append_cons, append_empty_l.
  rewrite !append_assoc, !append_cons, !append_empty_l.
  rewrite !append_assoc, !append_cons, !append_empty_l. reflexivity.
Qed.

Lemma ref_link_pattern_at_sound s m :
  Re.ref_link_pattern_at s = Some m ->
  Re.group0 m = "[" +:+ Re.group1 m +:+ "][" +:+ Re.group2 m +:+ "]"
  /\ Str.is_empty (Re.group1 m) = false
  /\ Str.contains_char rbracket (Re.group1 m) = false
  /\ Str.contains_char rbracket (Re.group2 m) = false
  /\ exists rest, s = Re.group0 m +:+ rest.
Proof.
  intros H. destruct s as [|c r]; [discriminate|].
  destruct c as [[] [] [] [] [] [] [] []]; try discriminate.
  cbn [Re.ref_link_pattern_at] in H.
  destruct (Re.until rbracket r) as [[text r1]|] eqn:E1; [|discriminate].
  destruct (until_sound _ _ _ _ E1) as [-> Ht].
  destruct r1 as [|c r2]; [discriminate|].
  destruct c as [[] [] [] [] [] [] [] []]; try discriminate.
  destruct (Str.is_empty text) eqn:Ee; [discriminate|].
  destruct (Re.until rbracket r2) as [[ref r3]|] eqn:E2; [|discriminate].
  destruct (until_sound _ _ _ _ E2) as [-> Hr].
  injection H as <-. cbn [Re.group0 Re.group1 Re.group2].
  split; [reflexivity|]. split; [exact Ee|]. split; [exact Ht|].
  split; [exact Hr|].
  exists r3. rewrite !append_cons, append_empty_l.
  rewrite !append_assoc, !append_cons, !append_empty_l.
  rewrite !append_assoc, !append_cons, !append_empty_l. reflexivity.
Qed.

Lemma image_pattern_at_sound s m :
  Re.image_pattern_at s = Some m ->
  Re.group0 m = "![" +:+ Re.group1 m +:+ "](" +:+ Re.group2 m +:+ ")"
  /\ Str.contains_char rbracket (Re.group1 m) = false
  /\ Str.contains_char rparen (Re.group2 m) = false
  /\ exists rest, s = Re.group0 m +:+ rest.
Proof.
  intros H. destruct (image_pattern_at_head _ _ H) as (r & ->).
  cbn [Re.image_pattern_at] in H.
  change (match bang with
          | "!"%char => _ | _ => _ end)
    with (match Re.link_pattern_at (String lbracket r) with
          | Some l => Some {| Re.group0 := String bang (Re.group0 l);
                              Re.group1 := Re.group1 l;
                              Re.group2 := Re.group2 l |}
          | None => None
          end) in H.
  destruct (Re.link_pattern_at (String lbracket r)) as [l|] eqn:E;
    [|discriminate].
  destruct (link_pattern_at_sound _ _ E) as (Hg & Ht & Hu & rest & Hs).
  injection H as <-. cbn [Re.group0 Re.group1 Re.group2].
  rewrite Hg. split; [reflexivity|]. split; [exact Ht|]. split; [exact Hu|].
  exists rest. rewrite Hs, Hg. reflexivity.
Qed.

(** Every match [finditer] returns is an excerpt of the string it scans,
    when a match at the head of a string is a prefix of that string. *)
Lemma finditer_from_excerpt at_ skip s m :
  (forall t m', at_ t = Some m' -> exists rest, t = Re.group0 m' +:+ rest) ->
  In m (Re.finditer_from at_ skip s) ->
  exists a b, s = a +:+ Re.group0 m +:+ b.
Proof.
  intros Hat. revert skip. induction s as [|c r IH]; intros skip H;
    [destruct H|].
  assert (Hlater : forall k, In m (Re.finditer_from at_ k r) ->
                             exists a b, String c r = a +:+ Re.group0 m +:+ b).
  { intros k Hk. destruct (IH k Hk) as (a & b & ->).
    exists (String c a), b. reflexivity. }
  cbn [Re.finditer_from] in H. destruct skip as [|k]; [|eapply Hlater, H].
  destruct (at_ (String c r)) as [m'|] eqn:E; [|eapply Hlater, H].
  destruct H as [<-|H]; [|eapply Hlater, H].
  destruct (Hat _ _ E) as (rest & Hs). exists "", rest. exact Hs.
Qed.

Lemma validate_url_quotes W i url original :
  Forall (fun x => line_number x = i /\ original_text x = original)
         (_validate_url W i url original).
Proof. unfold _validate_url. split_issues; split; reflexivity. Qed.

Lemma quoting_match line i m x :
  (exists a b, line = a +:+ Re.group0 m +:+ b) ->
  line_number x = i /\ original_text x = Re.group0 m ->
  at_line_quoting i line x.
Proof.
  intros (a & b & Hl) [Hn Ho]. split; [exact Hn|].
  exists a, b. rewrite Ho. exact Hl.
Qed.

Lemma links_body_quotes W defs i line :
  Forall (at_line_quoting i line) (links_body W defs i line).
Proof.
  unfold links_body. rewrite Forall_app. split.
  - apply Forall_flat_map_In. intros m Hm.
    assert (He : exists a b, line = a +:+ Re.group0 m +:+ b).
    { eapply finditer_from_excerpt; [|exact Hm]. intros t m' Ht.
      destruct (link_pattern_at_sound _ _ Ht) as (_ & _ & _ & H). exact H. }
    eapply List.Forall_impl; [intros x; apply (quoting_match _ _ _ _ He)|].
    unfold inline_link_issues. rewrite Forall_app. split.
    + split_issues; split; reflexivity.
    + destruct (Str.is_empty (Str.strip (Re.group2 m)));
        [split_issues; split; reflexivity|apply validate_url_quotes].
  - apply Forall_flat_map_In. intros m Hm.
    assert (He : exists a b, line = a +:+ Re.group0 m +:+ b).
    { eapply finditer_from_excerpt; [|exact Hm]. intros t m' Ht.
      destruct (ref_link_pattern_at_sound _ _ Ht) as (_ & _ & _ & _ & H).
      exact H. }
    eapply List.Forall_impl; [intros x; apply (quoting_match _ _ _ _ He)|].
    unfold ref_link_issues. split_issues; split; reflexivity.
Qed.

Lemma images_body_quotes W i line :
  Forall (at_line_quoting i line) (images_body W i line).
Proof.
  unfold images_body. apply Forall_flat_map_In. intros m Hm.
  assert (He : exists a b, line = a +:+ Re.group0 m +:+ b).
  { eapply finditer_from_excerpt; [|exact Hm]. intros t m' Ht.
    destruct (image_pattern_at_sound _ _ Ht) as (_ & _ & _ & H). exact H. }
  eapply List.Forall_impl; [intros x; apply (quoting_match _ _ _ _ He)|].
  unfold image_issues_of. split_issues; split; reflexivity.
Qed.

Lemma whole_line_quoted i line x :
  line_number x = i /\ original_text x = line -> at_line_quoting i line x.
Proof. intros [Hn Ho]. split; [exact Hn|apply excerpt_whole, Ho]. Qed.

Lemma checker_output_located W ls :
  Forall (located_in ls) (checker_output W ls).
Proof.
  eapply List.Forall_impl;
    [|apply (checker_output_holds W at_line_quoting ls)].
  - intros x (k & line & Hk & Hn & He). exists line.
    rewrite Hn. split; [lia|]. split; [|exact He].
    replace (1 + k - 1) with k by lia. exact Hk.
  - intros prev i line. unfold header_body.
    destruct (Re.header_pattern line); cbn [snd]; split_issues;
      apply whole_line_quoted; split; reflexivity.
  - intros defs i line. apply links_body_quotes.
  - intros st i line. unfold backtick_issues. split_issues.
    apply whole_line_quoted; split; reflexivity.
  - destruct (unclosed_issues_cases ls (fence_state_after ls)) as [->|[Ho ->]];
      repeat constructor.
    destruct (open_block_invariant ls Ho)
      as (c & n & opening & Hr & Hn & _).
    exists (block_start_line (fence_state_after ls) - 1), opening.
    split; [exact Hn|]. apply whole_line_quoted. cbn. split; [lia|].
    apply nth_error_nth. exact Hn.
  - intros st i line. unfold list_body.
    destruct (Re.list_item_pattern line) as [[[g1 marker] item]|];
      cbn [snd]; split_issues; apply whole_line_quoted; split; reflexivity.
  - intros i line. apply images_body_quotes.
  - intros i line. unfold emphasis_body. split_issues;
      apply whole_line_quoted; split; reflexivity.
  - intros st i line. unfold table_body.
    repeat match goal with
           | |- context [if ?c then _ else _] => destruct c
           end; cbn [snd]; split_issues;
      apply whole_line_quoted; split; reflexivity.
Qed.

(** X3. When the file loads, every issue [validate_all] returns points at
    a line of the document (its line number is at least 1 and at most the
    number of lines) and quotes it: its original text is that line or an
    excerpt of it.  No issue of a loaded document is about a line that
    does not exist. *)
Theorem issues_located (W : World) (text : string) :
  read_file W = ReadOk text ->
  Forall (located_in (Str.split newline text)) (validate_all W).
Proof.
  intros H. rewrite (validate_all_loaded W text H).
  apply sort_by_line_Forall, checker_output_located.
Qed.

Lemma issues_located_witness :
  Forall (located_in ["# Title"; "see [a](b.md) and ![](c.png)"; "```"])
         (validate_all (world_nothing_exists
            (String.concat (String newline "")
               ["# Title"; "see [a](b.md) and ![](c.png)"; "```"]))).
Proof.
  exact (issues_located
           (world_nothing_exists
              (String.concat (String newline "")
                 ["# Title"; "see [a](b.md) and ![](c.png)"; "```"]))
           (String.concat (String newline "")
              ["# Title"; "see [a](b.md) and ![](c.png)"; "```"])
           eq_refl).
Defined.

(** ** The lines of a loaded document *)

Lemma split_nonempty sep s : Str.split sep s <> [].
Proof.
  destruct s as [|c r]; [discriminate|]. cbn [Str.split].
  destruct (Char.eqb sep c); [discriminate|].
  destruct (Str.split sep r); discriminate.
Qed.

Lemma concat_split sep s :
  String.concat (String sep "") (Str.split sep s) = s.
Proof.
  induction s as [|c r IH]; [reflexivity|]. cbn [Str.split].
  destruct (Char.eqb sep c) eqn:E.
  - apply char_eqb_eq in E. subst c.
    pose proof (split_nonempty sep r) as Hne.
    destruct (Str.split sep r) as [|h t]; [contradiction|].
    cbn [String.concat] in *. rewrite IH. reflexivity.
  - pose proof (split_nonempty sep r) as Hne.
    destruct (Str.split sep r) as [|h t]; [contradiction|].
    cbn [String.concat] in *. destruct t as [|h' t'].
    + rewrite IH. reflexivity.
    + rewrite append_cons, IH. reflexivity.
Qed.

Lemma length_split sep s :
  length (Str.split sep s) = S (Str.count_char sep s).
Proof.
  induction s as [|c r IH]; [reflexivity|].
  cbn [Str.split Str.count_char]. destruct (Char.eqb sep c).
  - cbn [length]. rewrite IH. reflexivity.
  - pose proof (split_nonempty sep r) as Hne.
    destruct (Str.split sep r) as [|h t]; [contradiction|].
    cbn [length] in *. rewrite IH. reflexivity.
Qed.

(** X4. When the file is read, [load_file] succeeds, appends no issue and
    keeps the text; the lines it stores are one more than the line feeds
    of the text, none of them holds a line feed, and joined with line
    feeds they give the text back. *)
Theorem load_file_lines
    (path dir text : string) (ex : string -> bool)
    (up : string -> option (string * string)) (rh : string -> head_result) :
  let W := mkWorld path dir (ReadOk text) ex up rh in
  let v := snd (load_file W init) in
  fst (load_file W init) = true
  /\ content v = text
  /\ issues v = []
  /\ String.concat (String newline "") (lines v) = text
  /\ length (lines v) = S (Str.count_char newline text)
  /\ Forall (fun line => Str.contains_char newline line = false) (lines v).
Proof.
  cbv zeta. unfold load_file. cbn [read_file fst snd content issues lines init].
  split; [reflexivity|]. split; [reflexivity|]. split; [reflexivity|].
  split; [apply concat_split|]. split; [apply length_split|].
  apply split_no_separator.
Qed.

(** ** Fenced blocks *)

Lemma code_block_body_line st i line :
  Forall (fun x => line_number x = i) (snd (code_block_body st i line)).
Proof.
  unfold code_block_body, backtick_issues. cbn [snd]. split_issues.
  reflexivity.
Qed.

Lemma final_state_code_block st i ls :
  (forall k line, In line ls -> fence_step st k line = st) ->
  final_state code_block_body st i ls = st.
Proof.
  revert i. induction ls as [|line rest IH]; intros i H; [reflexivity|].
  unfold final_state. rewrite scan_cons. cbn [fst].
  unfold code_block_body at 2. cbn [fst].
  rewrite (H i line) by (left; reflexivity).
  apply IH. intros k l Hl. apply H. right. exact Hl.
Qed.

Lemma filter_unclosed ls :
  List.filter (of_type unclosed_code_block) (code_block_issues ls) =
  unclosed_issues ls (fence_state_after ls).
Proof.
  rewrite code_block_issues_eq, List.filter_app, code_block_loop_types.
  unfold unclosed_issues, when.
  destruct (in_fenced_block (fence_state_after ls)); reflexivity.
Qed.

(** X5. The checker reports an unclosed block at most once per document,
    and exactly when the fence state is open after the last line: a
    document whose last state is closed gets no [unclosed_code_block]. *)
Theorem unclosed_iff_open (ls : list string) :
  length (List.filter (of_type unclosed_code_block) (code_block_issues ls))
  = (if in_fenced_block (fence_state_after ls) then 1 else 0).
Proof.
  rewrite filter_unclosed. unfold unclosed_issues, when.
  destruct (in_fenced_block (fence_state_after ls)); reflexivity.
Qed.

(** X6. A block that is opened while the state is closed, holds only
    lines that cannot close it, and is followed by a fence line of the
    same character and at least the opening count, is closed by that
    line; when no fence line follows, the state is closed at the end and
    no [unclosed_code_block] is reported. *)
Theorem fenced_block_closes (pre body post : list string)
    (opening closing : string) (c : ascii) (n m : nat) :
  in_fenced_block (fence_state_after pre) = false ->
  fence_of opening = Some (c, n) ->
  Forall (keeps_block_open c n) body ->
  fence_of closing = Some (c, m) -> n <= m ->
  Forall (fun line => fence_of line = None) post ->
  in_fenced_block (fence_state_after (pre ++ opening :: body ++ [closing]))
    = false
  /\ in_fenced_block
       (fence_state_after (pre ++ opening :: body ++ closing :: post)) = false
  /\ List.filter (of_type unclosed_code_block)
       (code_block_issues (pre ++ opening :: body ++ closing :: post)) = [].
Proof.
  intros Hpre Hop Hbody Hcl Hnm Hpost.
  set (st1 := {| in_fenced_block := true; block_start_line := S (length pre);
                 fence_char := Some c; fence_count := n |}).
  assert (H1 : fence_state_after (pre ++ [opening]) = st1).
  { rewrite fence_state_after_snoc, fence_step_eq, Hop, Hpre. reflexivity. }
  assert (H2 : fence_state_after (pre ++ opening :: body) = st1).
  { change (pre ++ opening :: body) with (pre ++ [opening] ++ body).
    rewrite app_assoc. unfold fence_state_after. rewrite final_state_app.
    fold (fence_state_after (pre ++ [opening])). rewrite H1.
    apply final_state_code_block. intros k line Hin.
    rewrite List.Forall_forall in Hbody. specialize (Hbody line Hin).
    unfold keeps_block_open in Hbody. rewrite fence_step_eq.
    destruct (fence_of line) as [[c' k']|]; [|reflexivity].
    cbn [st1 in_fenced_block negb fence_char fence_count option_ascii_eqb].
    destruct Hbody as [Hc|Hk].
    - apply char_eqb_neq in Hc. rewrite Hc. reflexivity.
    - apply Nat.leb_gt in Hk. rewrite Hk, andb_false_r. reflexivity. }
  assert (H3 : in_fenced_block
                 (fence_state_after (pre ++ opening :: body ++ [closing]))
               = false).
  { change (pre ++ opening :: body ++ [closing])
      with (pre ++ (opening :: body) ++ [closing]).
    rewrite app_assoc, fence_state_after_snoc, H2, fence_step_eq, Hcl.
    cbn [st1 in_fenced_block negb fence_char fence_count option_ascii_eqb].
    rewrite char_eqb_refl. apply Nat.leb_le in Hnm. rewrite Hnm.
    reflexivity. }
  assert (H4 : in_fenced_block
                 (fence_state_after (pre ++ opening :: body ++ closing :: post))
               = false).
  { change (pre ++ opening :: body ++ closing :: post)
      with (pre ++ (opening :: body) ++ [closing] ++ post).
    rewrite !app_assoc. unfold fence_state_after. rewrite final_state_app.
    rewrite final_state_code_block.
    - rewrite <- app_assoc. exact H3.
    - intros k line Hin. rewrite fence_step_eq.
      rewrite List.Forall_forall in Hpost. rewrite (Hpost line Hin).
      reflexivity. }
  split; [exact H3|]. split; [exact H4|].
  rewrite filter_unclosed. unfold unclosed_issues, when. rewrite H4.
  reflexivity.
Qed.

Lemma fenced_block_closes_witness :
  Forall (keeps_block_open backtick 4) ["```"; "~~~~"; "code"]
  /\ in_fenced_block
       (fence_state_after
          ["text"; "````py"; "```"; "~~~~"; "code"; "`````"; "after"]) = false
  /\ List.filter (of_type unclosed_code_block)
       (code_block_issues
          ["text"; "````py"; "```"; "~~~~"; "code"; "`````"; "after"]) = [].
Proof.
  assert (Hbody : Forall (keeps_block_open backtick 4)
                         ["```"; "~~~~"; "code"]).
  { constructor; [right; vm_compute; lia|].
    constructor; [left; discriminate|].
    constructor; [exact I|constructor]. }
  split; [exact Hbody|].
  assert (Hnm : 4 <= 5) by lia.
  assert (Hpost : Forall (fun line => fence_of line = None) ["after"])
    by (repeat constructor).
  destruct (fenced_block_closes ["text"] ["```"; "~~~~"; "code"] ["after"]
              "````py" "`````" backtick 4 5
              eq_refl eq_refl Hbody eq_refl Hnm Hpost) as (_ & H1 & H2).
  split; [exact H1|exact H2].
Defined.

(** ** Backticks on fence lines and inside blocks *)

Lemma count_char_append c s t :
  Str.count_char c (s +:+ t) = Str.count_char c s + Str.count_char c t.
Proof.
  induction s as [|d s IH]; [reflexivity|].
  rewrite append_cons. cbn [Str.count_char]. rewrite IH. lia.
Qed.

Lemma count_char_drop_while c p s :
  p c = false -> Str.count_char c (Str.drop_while p s) = Str.count_char c s.
Proof.
  intros Hc. induction s as [|d s IH]; [reflexivity|].
  cbn [Str.drop_while]. destruct (p d) eqn:Ed; [|reflexivity].
  rewrite IH. cbn [Str.count_char]. destruct (Char.eqb c d) eqn:E;
    [|reflexivity].
  apply char_eqb_eq in E. subst d. congruence.
Qed.

Lemma count_char_rstrip_by c p s :
  p c = false -> Str.count_char c (Str.rstrip_by p s) = Str.count_char c s.
Proof.
  intros Hc. induction s as [|d s IH]; [reflexivity|].
  cbn [Str.rstrip_by].
  destruct (p d && Str.is_empty (Str.rstrip_by p s)) eqn:E.
  - apply andb_true_iff in E. destruct E as [Ed Ee].
    destruct (Str.rstrip_by p s); [|discriminate].
    cbn [Str.count_char] in *. rewrite <- IH.
    destruct (Char.eqb c d) eqn:Ec; [|reflexivity].
    apply char_eqb_eq in Ec. subst d. congruence.
  - cbn [Str.count_char]. rewrite IH. reflexivity.
Qed.

(** Trimming a line removes white space only. *)
Lemma count_char_strip c s :
  Char.is_space c = false ->
  Str.count_char c (Str.strip s) = Str.count_char c s.
Proof.
  intros Hc. unfold Str.strip, Str.lstrip_by.
  rewrite count_char_rstrip_by, count_char_drop_while by exact Hc.
  reflexivity.
Qed.

Lemma count_char_repeat_other c d n :
  Char.eqb c d = false -> Str.count_char c (Str.repeat d n) = 0.
Proof.
  intros H. induction n as [|n IH]; [reflexivity|].
  cbn [Str.repeat Str.count_char]. rewrite H, IH. reflexivity.
Qed.

Lemma count_char_all c p s :
  p c = false -> Str.all p s = true -> Str.count_char c s = 0.
Proof.
  intros Hc. induction s as [|d s IH]; intros H; [reflexivity|].
  cbn [Str.all] in H. apply andb_true_iff in H. destruct H as [Hd Hs].
  cbn [Str.count_char]. rewrite (IH Hs).
  destruct (Char.eqb c d) eqn:E; [|reflexivity].
  apply char_eqb_eq in E. subst d. congruence.
Qed.

Lemma count_triple_cons c c1 c2 c3 r :
  Str.count_triple c (String c1 (String c2 (String c3 r))) =
  if Char.eqb c c1 && Char.eqb c c2 && Char.eqb c c3
  then S (Str.count_triple c r)
  else Str.count_triple c (String c2 (String c3 r)).
Proof. reflexivity. Qed.

(** Triple occurrences are made of single ones. *)
Lemma count_triple_bound c n s :
  String.length s <= n -> Str.count_triple c s * 3 <= Str.count_char c s.
Proof.
  revert s. induction n as [|n IH]; intros s Hn.
  - destruct s; [cbn; lia|cbn in Hn; lia].
  - destruct s as [|c1 [|c2 [|c3 r]]]; try (cbn; lia).
    rewrite count_triple_cons.
    destruct (Char.eqb c c1 && Char.eqb c c2 && Char.eqb c c3) eqn:E.
    + apply andb_true_iff in E. destruct E as [E E3].
      apply andb_true_iff in E. destruct E as [E1 E2].
      cbn [Str.count_char]. rewrite E1, E2, E3.
      assert (H : Str.count_triple c r * 3 <= Str.count_char c r)
        by (apply IH; cbn in Hn; lia).
      lia.
    + assert (H : Str.count_triple c (String c2 (String c3 r)) * 3
                  <= Str.count_char c (String c2 (String c3 r)))
        by (apply IH; cbn in Hn |- *; lia).
      change (Str.count_char c (String c1 (String c2 (String c3 r))))
        with ((if Char.eqb c c1 then 1 else 0)
              + Str.count_char c (String c2 (String c3 r))).
      destruct (Char.eqb c c1); lia.
Qed.

Lemma prefix_empty s : String.prefix "" s = true.
Proof. destruct s; reflexivity. Qed.

Lemma startswith_triple c n tag :
  3 <= n ->
  Str.startswith (String c (String c (String c ""))) (Str.repeat c n +:+ tag)
  = true.
Proof.
  intros Hn. destruct n as [|[|[|n]]]; try lia.
  cbn [Str.repeat]. rewrite !append_cons. unfold Str.startswith.
  cbn [String.prefix]. destruct (ascii_dec c c) as [_|Hne]; [|contradiction].
  apply prefix_empty.
Qed.

(** A fence line gets no [unmatched_backticks], whatever the state. *)
Lemma backtick_issues_fence st i line c n :
  fence_of line = Some (c, n) -> backtick_issues st i line = [].
Proof.
  intros H. apply fence_of_spec in H.
  destruct H as (Hc & Hn & tag & Ht & Hs).
  unfold backtick_issues, when.
  destruct (negb (in_fenced_block st)); [|reflexivity].
  destruct Hc as [-> | ->].
  - rewrite Hs.
    change "```" with (String backtick (String backtick (String backtick ""))).
    rewrite (startswith_triple backtick n tag Hn), andb_false_r. reflexivity.
  - assert (H0 : Str.count_char backtick line = 0).
    { rewrite <- (count_char_strip backtick line eq_refl), Hs.
      rewrite count_char_append.
      rewrite (count_char_repeat_other backtick tilde n eq_refl).
      rewrite (count_char_all backtick Char.is_word tag eq_refl Ht).
      reflexivity. }
    pose proof (count_triple_bound backtick (String.length line) line
                  (Nat.le_refl _)) as Hb.
    rewrite H0 in *. assert (Str.count_triple backtick line = 0) as -> by lia.
    reflexivity.
Qed.

(** X7. For every document and each of its lines, the code block checker
    reports no [unmatched_backticks] at that line when the line is a
    fence line, or when the fence state is open once the line has been
    read: opening and closing fences, and every line inside a block, are
    never checked for stray backticks. *)
Theorem backticks_not_flagged (pre post : list string) (line : string) :
  fence_of line <> None
  \/ in_fenced_block (fence_state_after (pre ++ [line])) = true ->
  List.filter (backticks_at (S (length pre)))
              (code_block_issues (pre ++ line :: post)) = [].
Proof.
  intros H.
  assert (Hloop : List.filter (on_line (1 + length pre))
                    (snd (scan code_block_body fence_init 1
                            (pre ++ line :: post))) = []).
  { rewrite (scan_on_line code_block_body code_block_body_line).
    change (snd (code_block_body ?st ?i ?l))
      with (backtick_issues (fence_step st i l) i l).
    change (1 + length pre) with (S (length pre)).
    destruct H as [H|H].
    - destruct (fence_of line) as [[c n]|] eqn:E; [|contradiction].
      apply (backtick_issues_fence _ _ _ c n E).
    - rewrite fence_state_after_snoc in H. unfold fence_state_after in H.
      unfold backtick_issues. rewrite H. reflexivity. }
  rewrite code_block_issues_eq, List.filter_app.
  assert (Hsplit : forall l, List.filter (backticks_at (S (length pre))) l =
                   List.filter (of_type unmatched_backticks)
                     (List.filter (on_line (S (length pre))) l)).
  { intros l. induction l as [|x l IH]; [reflexivity|].
    cbn [List.filter]. unfold backticks_at at 1.
    destruct (on_line (S (length pre)) x); cbn [andb List.filter];
      rewrite IH; reflexivity. }
  rewrite (Hsplit (snd _)).
  change (1 + length pre) with (S (length pre)) in Hloop. rewrite Hloop.
  cbn [List.filter app]. unfold unclosed_issues, when.
  destruct (in_fenced_block (fence_state_after (pre ++ line :: post)));
    [|reflexivity].
  cbn [List.filter]. unfold backticks_at, of_type. cbn [issue_type].
  rewrite andb_false_r. reflexivity.
Qed.

Lemma backticks_not_flagged_witness :
  List.filter (backticks_at 2)
              (code_block_issues ["a ` b"; "~~~"; "x ` y"; "~~~"]) = []
  /\ List.filter (backticks_at 3)
                 (code_block_issues ["a ` b"; "~~~"; "x ` y"; "~~~"]) = [].
Proof.
  split.
  - apply (backticks_not_flagged ["a ` b"] ["x ` y"; "~~~"] "~~~").
    left. discriminate.
  - apply (backticks_not_flagged ["a ` b"; "~~~"] ["~~~"] "x ` y").
    right. reflexivity.
Defined.

(** ** Lists *)

Lemma filter_typed_at t k l :
  List.filter (typed_at t k) l =
  List.filter (of_type t) (List.filter (on_line k) l).
Proof.
  induction l as [|x l IH]; [reflexivity|].
  cbn [List.filter]. unfold typed_at at 1.
  destruct (on_line k x); cbn [andb List.filter]; rewrite IH; reflexivity.
Qed.

Lemma list_body_line st i line :
  Forall (fun x => line_number x = i) (snd (list_body st i line)).
Proof.
  unfold list_body.
  destruct (Re.list_item_pattern line) as [[[g1 marker] item]|]; cbn [snd];
    split_issues; reflexivity.
Qed.

Lemma strip_empty_drop_while s :
  Str.strip s = "" -> Str.drop_while Char.is_space s = "".
Proof.
  unfold Str.strip, Str.lstrip_by. induction s as [|c s IH]; [reflexivity|].
  cbn [Str.drop_while]. destruct (Char.is_space c) eqn:E; [exact IH|].
  cbn [Str.rstrip_by]. rewrite E. discriminate.
Qed.

Lemma blank_not_list_item line :
  is_blank line = true -> Re.list_item_pattern line = None.
Proof.
  unfold is_blank. intros H.
  destruct (Str.strip line) eqn:E; [|discriminate].
  unfold Re.list_item_pattern. rewrite (strip_empty_drop_while _ E).
  reflexivity.
Qed.

(** Blank lines leave the list bookkeeping alone. *)
Lemma list_state_blanks st i blanks :
  Forall (fun line => is_blank line = true) blanks ->
  final_state list_body st i blanks = st.
Proof.
  intros H. revert i. induction H as [|line rest Hb _ IH]; intros i;
    [reflexivity|].
  unfold final_state. rewrite scan_cons. cbn [fst].
  replace (fst (list_body st i line)) with st; [apply IH|].
  unfold list_body. rewrite (blank_not_list_item _ Hb). cbn [fst].
  unfold is_blank in Hb. unfold Str.truthy. rewrite Hb. reflexivity.
Qed.

(** After a line that is not blank, the flag tells whether it was a list
    item. *)
Lemma list_state_after_line st i line :
  is_blank line = false ->
  prev_was_list (fst (list_body st i line)) = is_list_item line.
Proof.
  intros Hb. unfold list_body, is_list_item.
  destruct (Re.list_item_pattern line) as [[[g1 marker] item]|];
    [reflexivity|].
  cbn [fst]. unfold is_blank in Hb. unfold Str.truthy. rewrite Hb.
  reflexivity.
Qed.

Lemma odd_indent_test n :
  (0 <? n) && negb (n mod 2 =? 0) && negb (n mod 4 =? 0) = (n mod 2 =? 1).
Proof.
  pose proof (Nat.mod_upper_bound n 2 ltac:(lia)) as Hlt.
  pose proof (Nat.Div0.mod_mul_r n 2 2) as H4.
  destruct (n mod 2 =? 0) eqn:E.
  - apply Nat.eqb_eq in E. rewrite E, andb_false_r. reflexivity.
  - apply Nat.eqb_neq in E.
    assert (H1 : n mod 2 = 1) by lia. rewrite H1.
    assert (Hn : 0 < n) by (destruct n; [cbn in E; lia|lia]).
    apply Nat.ltb_lt in Hn. rewrite Hn.
    assert (H0 : n mod (2 * 2) <> 0) by (rewrite H4; lia).
    change (2 * 2) with 4 in H0.
    apply Nat.eqb_neq in H0. rewrite H0. reflexivity.
Qed.

(** X8. For a list item that follows a non-blank line, with any number
    of blank lines in between, [inconsistent_indent] is reported at the
    item's line exactly when that earlier line is a list item too and
    the item's indentation has an odd number of characters; the issue is
    then reported once, and its suggested fix starts with two spaces for
    every two characters of the indentation.  An even indentation is
    never reported, nor is a first item after ordinary text. *)
Theorem odd_indent_reported (pre blanks post : list string)
    (prev line g1 marker item : string) :
  is_blank prev = false ->
  Forall (fun l => is_blank l = true) blanks ->
  Re.list_item_pattern line = Some (g1, marker, item) ->
  let k := length pre + 1 + length blanks + 1 in
  List.filter (typed_at inconsistent_indent k)
              (list_issues (pre ++ prev :: blanks ++ line :: post)) =
  if is_list_item prev && (String.length g1 mod 2 =? 1)
  then [indent_issue k line g1 marker item]
  else [].
Proof.
  intros Hprev Hblanks Hline k.
  assert (Hdoc : pre ++ prev :: blanks ++ line :: post =
                 (pre ++ prev :: blanks) ++ line :: post)
    by (rewrite <- app_assoc; reflexivity).
  assert (Hk : k = 1 + length (pre ++ prev :: blanks))
    by (unfold k; rewrite length_app; cbn [length]; lia).
  assert (Hst : prev_was_list
                  (final_state list_body list_init 1 (pre ++ prev :: blanks))
                = is_list_item prev).
  { change (pre ++ prev :: blanks) with (pre ++ [prev] ++ blanks).
    rewrite app_assoc, final_state_app, (list_state_blanks _ _ _ Hblanks).
    rewrite final_state_snoc. apply list_state_after_line, Hprev. }
  rewrite filter_typed_at. unfold list_issues. rewrite Hdoc, Hk.
  rewrite (scan_on_line list_body list_body_line).
  unfold list_body at 1. rewrite Hline. cbn [snd]. rewrite Hst.
  rewrite <- andb_assoc, <- andb_assoc.
  rewrite (andb_assoc (0 <? String.length g1)), odd_indent_test.
  rewrite List.filter_app. unfold when.
  destruct (is_list_item prev && (String.length g1 mod 2 =? 1));
    destruct (negb (Str.truthy (Str.strip item))); reflexivity.
Qed.

Lemma odd_indent_reported_witness :
  List.filter (typed_at inconsistent_indent 4)
              (list_issues ["- a"; ""; "  "; "   - b"; "text"; " - c"]) =
    [indent_issue 4 "   - b" "   " "-" "b"]
  /\ List.filter (typed_at inconsistent_indent 6)
                 (list_issues ["- a"; ""; "  "; "   - b"; "text"; " - c"]) = [].
Proof.
  split.
  - apply (odd_indent_reported [] [""; "  "] ["text"; " - c"]
             "- a" "   - b" "   " "-" "b"); try reflexivity.
    repeat constructor.
  - apply (odd_indent_reported ["- a"; ""; "  "; "   - b"] [] []
             "text" " - c" " " "-" "c"); try reflexivity.
    constructor.
Defined.

(** ** Table regions *)

Lemma drop_while_empty_all p s :
  Str.drop_while p s = "" -> Str.all p s = true.
Proof.
  induction s as [|c s IH]; [reflexivity|]. cbn [Str.drop_while Str.all].
  destruct (p c); [exact IH|discriminate].
Qed.

Lemma all_no_char c p s :
  p c = true -> Str.all (fun d => negb (p d)) s = true ->
  Str.contains_char c s = false.
Proof.
  intros Hc. induction s as [|d s IH]; intros H; [reflexivity|].
  cbn [Str.all] in H. apply andb_true_iff in H. destruct H as [Hd Hs].
  cbn [Str.contains_char]. rewrite (IH Hs), orb_false_r.
  apply char_eqb_neq. intros ->. rewrite Hc in Hd. discriminate.
Qed.

Lemma blank_no_pipe line :
  is_blank line = true -> Str.contains_char pipe line = false.
Proof.
  unfold is_blank. intros H. destruct (Str.strip line) eqn:E; [|discriminate].
  pose proof (drop_while_empty_all _ _ (strip_empty_drop_while _ E)) as Ha.
  clear -Ha. induction line as [|d s IH]; [reflexivity|].
  cbn [Str.all] in Ha. apply andb_true_iff in Ha. destruct Ha as [Hd Hs].
  cbn [Str.contains_char]. rewrite (IH Hs), orb_false_r.
  apply char_eqb_neq. intros <-. discriminate Hd.
Qed.

(** Blank lines leave the table bookkeeping alone. *)
Lemma table_state_blanks st i blanks :
  Forall (fun line => is_blank line = true) blanks ->
  scan table_body st i blanks = (st, []).
Proof.
  intros H. revert i. induction H as [|line rest Hb _ IH]; intros i;
    [reflexivity|].
  rewrite scan_cons.
  assert (Hbody : table_body st i line = (st, [])).
  { unfold table_body. rewrite (blank_no_pipe _ Hb).
    unfold is_blank in Hb. unfold Str.truthy. rewrite Hb, andb_false_r.
    reflexivity. }
  rewrite Hbody. cbn [fst snd]. rewrite IH. reflexivity.
Qed.

Lemma table_body_text st i line :
  Str.contains_char pipe line = false ->
  table_body st i line =
  (if in_table st && Str.truthy (Str.strip line)
   then {| in_table := false; table_start := table_start st;
           header_cols := header_cols st |}
   else st, []).
Proof. intros H. unfold table_body. rewrite H. reflexivity. Qed.

(** X9. A line without a pipe that is not blank ends the table region:
    whatever came before, the next table row (blank lines may come in
    between) starts a new region, sets the expected column count to its
    own and is not reported, however many columns it has. *)
Theorem text_line_ends_table (pre blanks post : list string)
    (text row : string) :
  Str.contains_char pipe text = false -> is_blank text = false ->
  Forall (fun line => is_blank line = true) blanks ->
  is_table_row row = true ->
  let k := length pre + 1 + length blanks + 1 in
  in_table (table_state_after (pre ++ text :: blanks)) = false
  /\ table_state_after (pre ++ text :: blanks ++ [row]) =
       {| in_table := true; table_start := k;
          header_cols := checker_cols row |}
  /\ List.filter (on_line k)
       (table_issues (pre ++ text :: blanks ++ row :: post)) = [].
Proof.
  intros Hpipe Htext Hblanks Hrow k.
  assert (Hk : k = 1 + length (pre ++ text :: blanks))
    by (unfold k; rewrite length_app; cbn [length]; lia).
  assert (Hst : in_table (table_state_after (pre ++ text :: blanks)) = false).
  { unfold table_state_after.
    change (pre ++ text :: blanks) with (pre ++ [text] ++ blanks).
    rewrite app_assoc, final_state_app. unfold final_state at 1.
    rewrite (table_state_blanks _ _ _ Hblanks). cbn [fst].
    rewrite final_state_snoc, (table_body_text _ _ _ Hpipe).
    unfold is_blank in Htext. unfold Str.truthy. rewrite Htext.
    cbn [negb fst]. rewrite andb_true_r.
    destruct (in_table (final_state table_body table_init 1 pre)) eqn:E;
      [reflexivity|exact E]. }
  split; [exact Hst|]. split.
  - unfold table_state_after in *.
    change (pre ++ text :: blanks ++ [row])
      with (pre ++ (text :: blanks) ++ [row]).
    rewrite app_assoc, final_state_snoc, (table_body_row _ _ _ Hrow), Hst.
    cbn [negb fst]. rewrite Hk. reflexivity.
  - unfold table_issues.
    change (pre ++ text :: blanks ++ row :: post)
      with (pre ++ (text :: blanks) ++ row :: post).
    rewrite app_assoc, Hk.
    rewrite (scan_on_line table_body table_body_line).
    rewrite (table_body_row _ _ _ Hrow).
    unfold table_state_after in Hst. rewrite Hst. reflexivity.
Qed.

Lemma text_line_ends_table_witness :
  List.filter (on_line 5)
    (table_issues ["|a|b|"; "|1|2|"; "some text"; ""; "|x|y|z|"; "|1|2|3|"])
  = [].
Proof.
  assert (Hblanks : Forall (fun line => is_blank line = true) [""])
    by (repeat constructor).
  destruct (text_line_ends_table ["|a|b|"; "|1|2|"] [""] ["|1|2|3|"]
              "some text" "|x|y|z|" eq_refl eq_refl Hblanks eq_refl)
    as (_ & _ & H).
  exact H.
Defined.

Lemma is_table_row_of_cells cells : is_table_row (row_of_cells cells) = true.
Proof.
  unfold is_table_row. rewrite strip_row_of_cells. unfold row_of_cells.
  cbn [Str.contains_char]. rewrite char_eqb_refl. cbn [orb andb].
  unfold Str.startswith. cbn [String.prefix].
  destruct (ascii_dec "|" pipe) as [_|Hne]; [|contradiction].
  rewrite prefix_empty. reflexivity.
Qed.

(** X10. When a table region starts with a header written [|h1|...|hn|]
    and the next line is a row written [|d1|...|dm|], all cells filled
    (no pipe inside, not blank) and the row no separator row, the checker
    reports the row exactly when the numbers of cells differ; the
    message counts the two outer empty segments as columns, so it says
    [n + 2] expected and [m + 2] found. *)
Theorem filled_rows_compared (pre post : list string) (hs ds : list string) :
  in_table (table_state_after pre) = false ->
  Forall (fun c => is_filled_cell c = true) hs ->
  Forall (fun c => is_filled_cell c = true) ds ->
  Re.separator_row (row_of_cells ds) = false ->
  let k := length pre + 2 in
  List.filter (on_line k)
    (table_issues (pre ++ row_of_cells hs :: row_of_cells ds :: post)) =
  if length ds =? length hs then []
  else [mismatch_issue k (row_of_cells ds) (length hs + 2) (length ds + 2)].
Proof.
  intros Hpre Hhs Hds Hsep k.
  assert (Hk : k = 1 + length (pre ++ [row_of_cells hs]))
    by (unfold k; rewrite length_app; cbn [length]; lia).
  unfold table_issues.
  change (pre ++ row_of_cells hs :: row_of_cells ds :: post)
    with (pre ++ [row_of_cells hs] ++ row_of_cells ds :: post).
  rewrite app_assoc, Hk.
  rewrite (scan_on_line table_body table_body_line).
  rewrite final_state_snoc.
  rewrite (table_body_row _ _ _ (is_table_row_of_cells hs)).
  unfold table_state_after in Hpre. rewrite Hpre. cbn [negb fst].
  rewrite (table_body_row _ _ _ (is_table_row_of_cells ds)).
  cbn [in_table negb snd header_cols].
  fold (checker_cols (row_of_cells hs)). fold (checker_cols (row_of_cells ds)).
  rewrite (checker_cols_row_of_cells _ Hhs), (checker_cols_row_of_cells _ Hds).
  rewrite strip_row_of_cells, Hsep. unfold when. cbn [negb].
  rewrite andb_true_r.
  destruct (length ds =? length hs) eqn:E.
  - apply Nat.eqb_eq in E. rewrite E, Nat.eqb_refl. reflexivity.
  - apply Nat.eqb_neq in E.
    assert (E' : length ds + 2 <> length hs + 2) by lia.
    apply Nat.eqb_neq in E'. rewrite E'. reflexivity.
Qed.

Lemma filled_rows_compared_witness :
  List.filter (on_line 3)
    (table_issues ["intro"; "| a | b | c |"; "| 1 | 2 |"; "| 3 | 4 | 5 |"])
  = [mismatch_issue 3 "| 1 | 2 |" 5 4].
Proof.
  assert (Hhs : Forall (fun c => is_filled_cell c = true) [" a "; " b "; " c "])
    by (repeat constructor).
  assert (Hds : Forall (fun c => is_filled_cell c = true) [" 1 "; " 2 "])
    by (repeat constructor).
  exact (filled_rows_compared ["intro"] ["| 3 | 4 | 5 |"]
           [" a "; " b "; " c "] [" 1 "; " 2 "] eq_refl Hhs Hds eq_refl).
Defined.

(** ** Links, images and the world *)

Lemma contains_char_append c s t :
  Str.contains_char c (s +:+ t) =
  Str.contains_char c s || Str.contains_char c t.
Proof.
  induction s as [|d s IH]; [reflexivity|].
  rewrite append_cons. cbn [Str.contains_char]. rewrite IH, orb_assoc.
  reflexivity.
Qed.

(** A pattern whose matches all hold an opening bracket finds nothing in
    a string without one. *)
Lemma finditer_from_none at_ skip s :
  (forall t m, at_ t = Some m -> Str.contains_char lbracket t = true) ->
  Str.contains_char lbracket s = false ->
  Re.finditer_from at_ skip s = [].
Proof.
  intros Hat. revert skip. induction s as [|c r IH]; intros skip H;
    [reflexivity|].
  assert (Hr : Str.contains_char lbracket r = false).
  { cbn [Str.contains_char] in H. apply orb_false_iff in H. apply H. }
  cbn [Re.finditer_from]. destruct skip as [|k]; [|apply IH, Hr].
  destruct (at_ (String c r)) as [m|] eqn:E; [|apply IH, Hr].
  rewrite (Hat _ _ E) in H. discriminate.
Qed.

Lemma link_match_has_bracket t m :
  Re.link_pattern_at t = Some m -> Str.contains_char lbracket t = true.
Proof.
  intros H. destruct (link_pattern_at_head _ _ H) as (r & ->).
  cbn [Str.contains_char]. rewrite char_eqb_refl. reflexivity.
Qed.

Lemma ref_link_match_has_bracket t m :
  Re.ref_link_pattern_at t = Some m -> Str.contains_char lbracket t = true.
Proof.
  intros H.
  destruct (ref_link_pattern_at_sound _ _ H) as (Hg & _ & _ & _ & rest & ->).
  rewrite Hg. reflexivity.
Qed.

Lemma image_match_has_bracket t m :
  Re.image_pattern_at t = Some m -> Str.contains_char lbracket t = true.
Proof.
  intros H. destruct (image_pattern_at_head _ _ H) as (r & ->).
  reflexivity.
Qed.

Lemma scan_lines_nil body i ls :
  (forall j line, In line ls -> body j line = []) ->
  scan_lines body i ls = [].
Proof.
  revert i. induction ls as [|line rest IH]; intros i H; [reflexivity|].
  cbn [scan_lines]. rewrite (H i line) by (left; reflexivity).
  apply IH. intros j l Hl. apply H. right. exact Hl.
Qed.

Lemma scan_lines_ext_in body1 body2 i ls :
  (forall j line, In line ls -> body1 j line = body2 j line) ->
  scan_lines body1 i ls = scan_lines body2 i ls.
Proof.
  revert i. induction ls as [|line rest IH]; intros i H; [reflexivity|].
  cbn [scan_lines]. rewrite (H i line) by (left; reflexivity).
  f_equal. apply IH. intros j l Hl. apply H. right. exact Hl.
Qed.

(** X11. A document in which no line holds an opening bracket gets no
    issue from the link checker and none from the image checker, and
    what the seven checkers report for it is the same in every world:
    neither the file system nor the network is consulted. *)
Theorem no_bracket_no_link_issue (W W' : World) (ls : list string) :
  Forall (fun line => Str.contains_char lbracket line = false) ls ->
  link_issues W ls = []
  /\ image_issues W ls = []
  /\ checker_output W ls = checker_output W' ls.
Proof.
  intros H. rewrite List.Forall_forall in H.
  assert (Hl : forall V, link_issues V ls = []).
  { intros V. unfold link_issues. apply scan_lines_nil. intros j line Hin.
    unfold links_body, Re.finditer.
    rewrite (finditer_from_none _ _ _ link_match_has_bracket (H line Hin)).
    rewrite (finditer_from_none _ _ _ ref_link_match_has_bracket (H line Hin)).
    reflexivity. }
  assert (Hi : forall V, image_issues V ls = []).
  { intros V. unfold image_issues. apply scan_lines_nil. intros j line Hin.
    unfold images_body, Re.finditer.
    rewrite (finditer_from_none _ _ _ image_match_has_bracket (H line Hin)).
    reflexivity. }
  split; [apply Hl|]. split; [apply Hi|].
  unfold checker_output. rewrite !Hl, !Hi. reflexivity.
Qed.

Lemma no_bracket_no_link_issue_witness :
  checker_output (world_nothing_exists "") ["# T"; "a ** b"; "|x|y"; "|z"] =
  checker_output (world_with_picture "") ["# T"; "a ** b"; "|x|y"; "|z"].
Proof.
  assert (H : Forall (fun line => Str.contains_char lbracket line = false)
                     ["# T"; "a ** b"; "|x|y"; "|z"])
    by (repeat constructor).
  destruct (no_bracket_no_link_issue (world_nothing_exists "")
              (world_with_picture "") _ H) as (_ & _ & E).
  exact E.
Defined.

Lemma validate_url_local W W' i url original :
  base_dir W = base_dir W' ->
  (forall p, path_exists W p = path_exists W' p) ->
  has_link_scheme url = false ->
  _validate_url W i url original = _validate_url W' i url original.
Proof.
  intros Hb Hp Hs. unfold _validate_url. rewrite Hs, Hb, Hp. reflexivity.
Qed.

(** X12. Two worlds with the same file, base directory and file system
    give the same validation result when no inline link of the document
    has a url starting with [http://], [https://], [mailto:] or [tel:]:
    for such a document neither [urlparse] nor the network matters. *)
Theorem local_links_need_no_network (W W' : World) :
  same_files W W' ->
  (forall text, read_file W = ReadOk text ->
                Forall links_are_local (Str.split newline text)) ->
  validate_all W = validate_all W'.
Proof.
  intros (Hf & Hb & Hr & Hp) Hlocal.
  rewrite (validate_all_sink W), (validate_all_sink W').
  unfold sink_before_sort, load_file. rewrite <- Hr, <- Hf.
  destruct (read_file W) as [text| |msg] eqn:E; [|reflexivity..].
  f_equal. specialize (Hlocal text eq_refl).
  rewrite List.Forall_forall in Hlocal.
  unfold checker_output. f_equal. f_equal; [|f_equal; f_equal; f_equal].
  - unfold link_issues. apply scan_lines_ext_in. intros j line Hin.
    unfold links_body. f_equal.
    specialize (Hlocal line Hin). unfold links_are_local in Hlocal.
    induction Hlocal as [|m l Hm _ IH]; [reflexivity|].
    cbn [flat_map]. rewrite IH. f_equal. unfold inline_link_issues.
    f_equal. destruct (Str.is_empty (Str.strip (Re.group2 m)));
      [reflexivity|].
    apply validate_url_local; assumption.
  - unfold image_issues. apply scan_lines_ext. intros j line.
    unfold images_body. apply flat_map_pointwise. intros m.
    unfold image_issues_of. rewrite Hb, Hp. reflexivity.
Qed.

Lemma local_links_need_no_network_witness :
  validate_all
    (mkWorld "doc.md" "/docs" (ReadOk "see [a](b.md) and [c](#top)")
       (fun _ => false) (fun _ => None) (fun _ => HeadTimeout)) =
  validate_all
    (mkWorld "doc.md" "/docs" (ReadOk "see [a](b.md) and [c](#top)")
       (fun _ => false) (fun _ => Some ("http", "host"))
       (fun _ => HeadStatus 500)).
Proof.
  apply local_links_need_no_network.
  - repeat split.
  - intros text H. injection H as <-.
    constructor; [|constructor].
    unfold links_are_local.
    change (Re.finditer Re.link_pattern_at "see [a](b.md) and [c](#top)")
      with [Re.mkMatch "[a](b.md)" "a" "b.md";
            Re.mkMatch "[c](#top)" "c" "#top"].
    constructor; [reflexivity|].
    constructor; [reflexivity|constructor].
Defined.

(** ** Reference definition lines *)

Lemma definition_line_no_bracket_after id target :
  Str.contains_char lbracket id = false ->
  Str.contains_char lbracket target = false ->
  Str.contains_char lbracket (id +:+ String rbracket (String colon target))
  = false.
Proof.
  intros Hi Ht. rewrite contains_char_append, Hi.
  cbn [Str.contains_char orb]. exact Ht.
Qed.

(** X13. A reference definition line [[id]: target] whose identifier and
    target hold no bracket is a definition for the first pass and yields
    no issue from the link checker nor from the image checker, in any
    world and whatever the table: the target of a definition is never
    checked, neither for existence nor over the network. *)
Theorem definition_line_unchecked (W : World)
    (defs : gmap string (nat * string)) (i : nat) (id target : string) :
  Str.is_empty id = false -> Str.is_empty target = false ->
  Str.contains_char lbracket id = false ->
  Str.contains_char rbracket id = false ->
  Str.contains_char lbracket target = false ->
  let line := "[" +:+ id +:+ "]:" +:+ target in
  definition_id line = Some (Str.lower id)
  /\ links_body W defs i line = []
  /\ images_body W i line = [].
Proof.
  intros Hid Htarget Hl Hr Ht line.
  assert (Hline : line = String lbracket
                           (id +:+ String rbracket (String colon target)))
    by reflexivity.
  pose proof (until_app rbracket id (String colon target) Hr) as Hu.
  pose proof (definition_line_no_bracket_after id target Hl Ht) as Hno.
  split; [|split].
  - unfold definition_id, Re.ref_def_pattern. rewrite Hline, Hu, Hid.
    destruct (Str.truthy (Str.drop_while Char.is_space target));
      [reflexivity|].
    destruct target as [|c t]; [discriminate|].
    destruct (Str.last (String c t)) eqn:E; [reflexivity|].
    exfalso. clear -E. revert c E. induction t as [|d t IH]; intros c E;
      [discriminate|]. apply (IH d). exact E.
  - unfold links_body, Re.finditer. rewrite Hline.
    cbn [Re.finditer_from Re.link_pattern_at Re.ref_link_pattern_at].
    rewrite Hu.
    rewrite (finditer_from_none _ _ _ link_match_has_bracket Hno).
    rewrite (finditer_from_none _ _ _ ref_link_match_has_bracket Hno).
    reflexivity.
  - unfold images_body, Re.finditer. rewrite Hline.
    cbn [Re.finditer_from Re.image_pattern_at].
    rewrite (finditer_from_none _ _ _ image_match_has_bracket Hno).
    reflexivity.
Qed.

Lemma definition_line_unchecked_witness :
  definition_id "[Docs]: missing/file.md" = Some "docs"
  /\ links_body (world_nothing_exists "") ∅ 7 "[Docs]: missing/file.md" = []
  /\ images_body (world_nothing_exists "") 7 "[Docs]: missing/file.md" = [].
Proof.
  exact (definition_line_unchecked (world_nothing_exists "") ∅ 7
           "Docs" " missing/file.md" eq_refl eq_refl eq_refl eq_refl eq_refl).
Defined.

(** ** Headings *)

Lemma header_body_line prev i line :
  Forall (fun x => line_number x = i) (snd (header_body prev i line)).
Proof.
  unfold header_body. destruct (Re.header_pattern line); cbn [snd];
    split_issues; reflexivity.
Qed.

Lemma header_pattern_level line m :
  Re.header_pattern line = Some m ->
  1 <= String.length (Re.group1 m) <= 6.
Proof.
  unfold Re.header_pattern.
  destruct (String.length (Str.take_while (Char.eqb hash) line) =? 0) eqn:E;
    [discriminate|].
  apply Nat.eqb_neq in E. intros H. injection H as <-.
  cbn [Re.group1]. rewrite length_repeat. lia.
Qed.

(** One iteration keeps the tracker at most 6 and only suggests inner
    levels for a skip. *)
Lemma header_body_levels prev i line :
  prev <= 6 ->
  fst (header_body prev i line) <= 6
  /\ Forall (fun x => issue_type x = header_hierarchy ->
                      suggests_inner_level x)
            (snd (header_body prev i line)).
Proof.
  intros Hp. unfold header_body.
  destruct (Re.header_pattern line) as [m|] eqn:E;
    [|split; [exact Hp|constructor]].
  pose proof (header_pattern_level _ _ E) as Hl. cbn [fst snd].
  split; [lia|]. rewrite !Forall_app. repeat split.
  - split_issues. discriminate.
  - split_issues. discriminate.
  - unfold when.
    destruct ((0 <? prev) && (prev + 1 <? String.length (Re.group1 m)))
      eqn:Ec; [|constructor].
    apply andb_true_iff in Ec. destruct Ec as [E1 E2].
    apply Nat.ltb_lt in E1, E2. constructor; [|constructor]. intros _.
    exists (prev + 1), (Str.strip (Re.group2 m)). split; [lia|reflexivity].
  - split_issues. discriminate.
Qed.

(** X14. Over any document the level tracker of the header checker stays
    between 0 and 6, and every [header_hierarchy] issue suggests a
    heading of level 2 to 5: the level just below the previous heading's,
    never a level the checker itself would not accept. *)
Theorem header_levels_bounded (ls : list string) :
  header_level_after ls <= 6
  /\ Forall (fun x => issue_type x = header_hierarchy ->
                      suggests_inner_level x)
            (header_issues ls).
Proof.
  unfold header_level_after, header_issues, final_state.
  assert (H : forall prev i, prev <= 6 ->
            fst (scan header_body prev i ls) <= 6
            /\ Forall (fun x => issue_type x = header_hierarchy ->
                                suggests_inner_level x)
                      (snd (scan header_body prev i ls))).
  { induction ls as [|line rest IH]; intros prev i Hp.
    - split; [exact Hp|constructor].
    - rewrite scan_cons. cbn [fst snd].
      destruct (header_body_levels prev i line Hp) as [H1 H2].
      destruct (IH _ (S i) H1) as [H3 H4].
      split; [exact H3|]. rewrite Forall_app. split; assumption. }
  apply H. lia.
Qed.

Lemma drop_repeat c n s : Str.drop n (Str.repeat c n +:+ s) = s.
Proof.
  induction n as [|n IH]; [reflexivity|].
  cbn [Str.repeat]. rewrite append_cons. exact IH.
Qed.

Lemma drop_while_idempotent p s :
  Str.drop_while p (Str.drop_while p s) = Str.drop_while p s.
Proof.
  induction s as [|c s IH]; [reflexivity|].
  cbn [Str.drop_while]. destruct (p c) eqn:E; [exact IH|].
  cbn [Str.drop_while]. rewrite E. reflexivity.
Qed.

Lemma strip_drop_while s :
  Str.strip (Str.drop_while Char.is_space s) = Str.strip s.
Proof.
  unfold Str.strip, Str.lstrip_by. rewrite drop_while_idempotent.
  reflexivity.
Qed.

(** What the pattern makes of a clean heading. *)
Lemma header_pattern_clean n text line :
  clean_heading n text line ->
  Re.header_pattern line =
  Some (Re.mkMatch line (Str.repeat hash n)
          (Str.drop_while Char.is_space text)).
Proof.
  intros (-> & Hn & _ & _). unfold Re.header_pattern.
  rewrite take_while_run by reflexivity. rewrite length_repeat.
  replace (n =? 0) with false by (symmetry; apply Nat.eqb_neq; lia).
  replace (Nat.min n 6) with n by lia.
  rewrite drop_repeat. reflexivity.
Qed.

Lemma char_at_repeat c n d s :
  Str.char_at n (Str.repeat c n +:+ String d s) = String d "".
Proof. unfold Str.char_at. rewrite drop_repeat. reflexivity. Qed.

Lemma header_body_clean prev i n text line :
  clean_heading n text line ->
  header_body prev i line =
  (n, if (0 <? prev) && (prev + 1 <? n)
      then [hierarchy_issue i line (Str.strip text) prev n]
      else []).
Proof.
  intros Hc. unfold header_body. rewrite (header_pattern_clean _ _ _ Hc).
  destruct Hc as (Hline & Hn & Ht & He).
  cbn [Re.group1 Re.group2]. rewrite strip_drop_while, length_repeat.
  unfold Str.truthy. rewrite Ht, He. cbn [negb].
  rewrite Hline at 1.
  change (" " +:+ text) with (String " "%char text).
  rewrite char_at_repeat. cbn [String.eqb Ascii.eqb Bool.eqb negb andb].
  unfold when. cbn [app].
  destruct ((0 <? prev) && (prev + 1 <? n)); reflexivity.
Qed.

(** X15. A clean heading (one to six hashes, a space, a text that is not
    blank and does not end with a hash) is reported for one thing only:
    when an earlier heading exists and the heading is more than one level
    deeper than it, a single [header_hierarchy] info is reported; otherwise
    the heading gets no issue.  In both cases the heading's level becomes
    the level later headings are compared with. *)
Theorem clean_heading_checked (pre post : list string)
    (n : nat) (text line : string) :
  clean_heading n text line ->
  let prev := header_level_after pre in
  let k := S (length pre) in
  header_level_after (pre ++ [line]) = n
  /\ List.filter (on_line k) (header_issues (pre ++ line :: post)) =
     if (0 <? prev) && (prev + 1 <? n)
     then [hierarchy_issue k line (Str.strip text) prev n]
     else [].
Proof.
  intros Hc prev k. split.
  - unfold header_level_after. rewrite final_state_snoc.
    rewrite (header_body_clean _ _ _ _ _ Hc). reflexivity.
  - unfold header_issues. change k with (1 + length pre).
    rewrite (scan_on_line header_body header_body_line).
    rewrite (header_body_clean _ _ _ _ _ Hc). reflexivity.
Qed.

Lemma clean_heading_checked_witness :
  clean_heading 4 "Deep" "#### Deep"
  /\ List.filter (on_line 3) (header_issues ["# Top"; "text"; "#### Deep"]) =
       [hierarchy_issue 3 "#### Deep" "Deep" 1 4]
  /\ List.filter (on_line 1) (header_issues ["# Top"; "text"; "#### Deep"])
     = [].
Proof.
  assert (H4 : clean_heading 4 "Deep" "#### Deep").
  { split; [reflexivity|]. split; [lia|]. split; reflexivity. }
  assert (H1 : clean_heading 1 "Top" "# Top").
  { split; [reflexivity|]. split; [lia|]. split; reflexivity. }
  split; [exact H4|]. split.
  - exact (proj2 (clean_heading_checked ["# Top"; "text"] [] 4 "Deep"
                    "#### Deep" H4)).
  - exact (proj2 (clean_heading_checked [] ["text"; "#### Deep"] 1 "Top"
                    "# Top" H1)).
Defined.

(** ** Checkers without memory *)

Lemma scan_lines_line_numbers body i ls :
  (forall j line, Forall (fun x => line_number x = j) (body j line)) ->
  Forall (fun x => i <= line_number x < i + length ls) (scan_lines body i ls).
Proof.
  intros Hb. revert i. induction ls as [|line rest IH]; intros i.
  - constructor.
  - cbn [scan_lines length]. rewrite Forall_app. split.
    + eapply List.Forall_impl; [|apply Hb]. cbn. intros x Hx. lia.
    + eapply List.Forall_impl; [|apply IH]. cbn. intros x Hx. lia.
Qed.

Lemma scan_lines_off_line body i ls k :
  (forall j line, Forall (fun x => line_number x = j) (body j line)) ->
  k < i \/ i + length ls <= k ->
  List.filter (on_line k) (scan_lines body i ls) = [].
Proof.
  intros Hb Hk. apply filter_none.
  eapply List.Forall_impl; [|apply scan_lines_line_numbers, Hb].
  cbn. intros x Hx. unfold on_line. apply Nat.eqb_neq. lia.
Qed.

(** The issues of line [i + length a] are those its iteration appends. *)
Lemma scan_lines_on_line body i a line b :
  (forall j l, Forall (fun x => line_number x = j) (body j l)) ->
  List.filter (on_line (i + length a)) (scan_lines body i (a ++ line :: b)) =
  body (i + length a) line.
Proof.
  intros Hb. rewrite scan_lines_app. cbn [scan_lines].
  rewrite !List.filter_app.
  rewrite !(scan_lines_off_line body) by (try exact Hb; lia).
  rewrite app_nil_r. cbn [app].
  pose proof (Hb (i + length a) line) as H.
  induction H as [|x l Hx _ IH]; [reflexivity|].
  cbn [List.filter]. unfold on_line at 1. rewrite Hx, Nat.eqb_refl, IH.
  reflexivity.
Qed.

Lemma emphasis_body_line i line :
  Forall (fun x => line_number x = i) (emphasis_body i line).
Proof. unfold emphasis_body. split_issues; reflexivity. Qed.

Lemma images_body_line W i line :
  Forall (fun x => line_number x = i) (images_body W i line).
Proof.
  eapply List.Forall_impl; [|apply images_body_quotes].
  intros x [H _]. exact H.
Qed.

(** X16. What the emphasis checker and the image checker report for a
    line depends on that line and its number only, not on the lines
    around it: neither checker knows whether the line is inside a fenced
    code block, so code lines are checked like any other line. *)
Theorem line_local_checkers (W : World) (pre post : list string)
    (line : string) :
  List.filter (on_line (S (length pre)))
              (emphasis_issues (pre ++ line :: post)) =
    emphasis_body (S (length pre)) line
  /\ List.filter (on_line (S (length pre)))
                 (image_issues W (pre ++ line :: post)) =
       images_body W (S (length pre)) line.
Proof.
  split.
  - exact (scan_lines_on_line emphasis_body 1 pre line post
             emphasis_body_line).
  - exact (scan_lines_on_line (images_body W) 1 pre line post
             (images_body_line W)).
Qed.

(** ** Inline code spans *)

Lemma code_span_at_other c r :
  Char.eqb backtick c = false -> Re.code_span_at (String c r) = None.
Proof.
  intros H. destruct c as [[] [] [] [] [] [] [] []];
    try reflexivity; discriminate H.
Qed.

Lemma sub_code_spans_prefix a s :
  Str.contains_char backtick a = false ->
  Re.sub_code_spans_from 0 (a +:+ s) = a +:+ Re.sub_code_spans_from 0 s.
Proof.
  induction a as [|c a IH]; intros H; [reflexivity|].
  cbn [Str.contains_char] in H. apply orb_false_iff in H.
  destruct H as [Hc Ha]. rewrite !append_cons.
  cbn [Re.sub_code_spans_from]. rewrite (code_span_at_other _ _ Hc).
  rewrite (IH Ha). reflexivity.
Qed.

Lemma sub_code_spans_skip s k t :
  Re.sub_code_spans_from (String.length s + k) (s +:+ t) =
  Re.sub_code_spans_from k t.
Proof.
  induction s as [|c s IH]; [reflexivity|].
  rewrite append_cons. cbn [String.length Nat.add Re.sub_code_spans_from].
  exact IH.
Qed.

Lemma take_while_until p s c t :
  Str.all p s = true -> p c = false ->
  Str.take_while p (s +:+ String c t) = s
  /\ Str.drop_while p (s +:+ String c t) = String c t.
Proof.
  intros Hs Hc. induction s as [|d s IH].
  - rewrite append_empty_l. cbn [Str.take_while Str.drop_while].
    rewrite Hc. split; reflexivity.
  - cbn [Str.all] in Hs. apply andb_true_iff in Hs. destruct Hs as [Hd Hs].
    rewrite append_cons. cbn [Str.take_while Str.drop_while]. rewrite Hd.
    destruct (IH Hs) as [-> ->]. split; reflexivity.
Qed.

Lemma no_char_all c s :
  Str.contains_char c s = false ->
  Str.all (fun d => negb (Char.eqb c d)) s = true.
Proof.
  induction s as [|d s IH]; intros H; [reflexivity|].
  cbn [Str.contains_char] in H. apply orb_false_iff in H.
  destruct H as [Hd Hs]. cbn [Str.all]. rewrite Hd, (IH Hs). reflexivity.
Qed.

(** A code span at the head of a string is removed whole. *)
Lemma sub_code_spans_span body b :
  Str.is_empty body = false ->
  Str.contains_char backtick body = false ->
  Re.sub_code_spans_from 0 (String "`"%char (body +:+ String backtick b)) =
  Re.sub_code_spans_from 0 b.
Proof.
  intros He Hb.
  destruct (take_while_until (fun c => negb (Char.eqb backtick c))
              body backtick b (no_char_all _ _ Hb) eq_refl) as [Ht Hd].
  cbn [Re.sub_code_spans_from Re.code_span_at]. rewrite Ht, Hd, He.
  replace (String.length body + 2 - 1) with (String.length body + 1) by lia.
  rewrite sub_code_spans_skip. reflexivity.
Qed.

(** X17. An inline code span that is the first thing with a backtick on
    its line is removed before the bold markers are counted: the text
    between its backticks never changes what the emphasis checker
    reports.  On such a line that is not skipped as a fence, the checker
    counts the markers of the text before the span and of what is left
    of the text after it. *)
Theorem code_span_not_counted (i : nat) (a body b : string) :
  Str.contains_char backtick a = false ->
  Str.is_empty body = false ->
  Str.contains_char backtick body = false ->
  let line := a +:+ "`" +:+ body +:+ "`" +:+ b in
  let counted := a +:+ Re.sub_code_spans b in
  Re.sub_code_spans line = counted
  /\ (Str.startswith "```" (Str.strip line)
      || Str.startswith "~~~" (Str.strip line) = false ->
      emphasis_body i line =
      when (negb (Str.count_double "*"%char counted mod 2 =? 0))
        {| line_number := i; issue_type := unmatched_bold;
           severity := sev_warning;
           description := "Possibly unmatched bold markers (**)";
           original_text := line;
           suggested_fix := "Ensure ** markers are properly paired" |}
      ++ when (negb (Str.count_double "_"%char counted mod 2 =? 0))
        {| line_number := i; issue_type := unmatched_bold;
           severity := sev_warning;
           description := "Possibly unmatched bold markers (__)";
           original_text := line;
           suggested_fix := "Ensure __ markers are properly paired" |}).
Proof.
  intros Ha He Hb line counted.
  assert (Hsub : Re.sub_code_spans line = counted).
  { unfold line, counted, Re.sub_code_spans.
    rewrite (sub_code_spans_prefix _ _ Ha).
    change ("`" +:+ body +:+ "`" +:+ b)
      with (String backtick (body +:+ String backtick b)).
    rewrite (sub_code_spans_span _ _ He Hb). reflexivity. }
  split; [exact Hsub|].
  intros Hskip. unfold emphasis_body. rewrite Hskip, Hsub. reflexivity.
Qed.

Lemma code_span_not_counted_witness :
  emphasis_body 3 "a **b** `x ** y` c" = []
  /\ Re.sub_code_spans "a **b** `x ** y` c" = "a **b**  c".
Proof.
  destruct (code_span_not_counted 3 "a **b** " "x ** y" " c"
              eq_refl eq_refl eq_refl) as [Hs He].
  split; [exact (He eq_refl)|exact Hs].
Defined.

(** ** Images with a data URI *)


